(** * The OSM ConfigMap client (pkg/configurator/client.go)

    A shallow embedding of the configurator client: the namespace filter
    built by [NewConfigurator], the cache key, the config accessor
    [getConfigMap] and the sync coordinator [run], together with the parts
    of the Go runtime and of the libraries the client calls (reflect,
    channels, the informer's store, yaml.v2) that its behaviour depends on. *)

From Stdlib Require Import ZArith Ascii String List Lia.
From stdpp Require Import base option list gmap strings pretty fin_maps.

Set Warnings "-register-all".
Local Open Scope string_scope.

(** ** Go runtime: panics, diagnostics, channels *)

Module Go.

(** Why a goroutine panicked. *)
Inductive panic : Type :=
| ReflectKind (method : string)        (* reflect: call of <method> on a Value of the wrong kind *)
| TypeAssertion (wanted : string)      (* interface conversion: the dynamic type is not <wanted> *)
| CloseOfClosedChannel.

(** A line written through the process-wide logger. *)
Inductive diag : Type :=
| LogInfo (msg : string)
| LogError (cause : option string) (msg : string).

(** The result of running a function body: it returns or it panics. *)
Inductive outcome (A : Type) : Type :=
| Returned (a : A)
| Panicked (p : panic).
Arguments Returned {A} a.
Arguments Panicked {A} p.

(** A computation threads the log through and may panic; what was logged
    before a panic stays logged. *)
Definition M (A : Type) : Type := list diag -> outcome A * list diag.

Definition ret {A} (a : A) : M A := fun log => (Returned a, log).

Definition bind {A B} (m : M A) (k : A -> M B) : M B :=
  fun log =>
    match m log with
    | (Returned a, log') => k a log'
    | (Panicked p, log') => (Panicked p, log')
    end.

Definition emit (d : diag) : M unit := fun log => (Returned tt, (log ++ [d])%list).

(** Lifting a call that either returns or panics and logs nothing. *)
Definition lift {A} (o : outcome A) : M A := fun log => (o, log).

(** Running a computation from an empty log. *)
Definition exec {A} (m : M A) : outcome A * list diag := m [].

(** A channel: its capacity, the values buffered in it, whether it was
    closed. [make(chan T)] has capacity 0. *)
Record chan (T : Type) : Type := MkChan {
  capacity : nat;
  buffer : list T;
  closed : bool;
}.
Arguments MkChan {T} _ _ _.
Arguments capacity {T} _.
Arguments buffer {T} _.
Arguments closed {T} _.

Definition make {T} (cap : nat) : chan T := MkChan cap [] false.

(** [close(ch)]: closing a closed channel panics. *)
Definition close {T} (ch : chan T) : outcome (chan T) :=
  if closed ch then Panicked CloseOfClosedChannel
  else Returned (MkChan (capacity ch) (buffer ch) true).

(** What a send finds when no goroutine is receiving: room in the buffer,
    or nothing to do but wait. (A send on a closed channel panics; the
    announcements channel is never closed by the client.) *)
Inductive send_result (T : Type) : Type :=
| Sent (ch : chan T)
| WouldBlock.
Arguments Sent {T} ch.
Arguments WouldBlock {T}.

Definition try_send {T} (ch : chan T) (v : T) : send_result T :=
  if Nat.ltb (length (buffer ch)) (capacity ch)
  then Sent (MkChan (capacity ch) (buffer ch ++ [v])%list (closed ch))
  else WouldBlock.

End Go.

#[global] Instance outcome_ret : MRet Go.outcome := @Go.Returned.
#[global] Instance outcome_bind : MBind Go.outcome := fun A B k o =>
  match o with
  | Go.Returned a => k a
  | Go.Panicked p => Go.Panicked p
  end.
#[global] Instance go_ret : MRet Go.M := @Go.ret.
#[global] Instance go_bind : MBind Go.M := fun A B k m => Go.bind m k.

(** ** Package reflect, as far as the namespace filter uses it *)

Module reflect.

(** Go values an informer handler can be handed as [interface{}]. A struct
    carries its type name and its own fields in declaration order, an
    embedded struct as the field named after its type (fields promoted from
    an embedded struct are not listed again: the filter looks up
    ObjectMeta in the object and Namespace in the ObjectMeta, each a field
    of the struct it is looked up in). *)
Inductive value : Type :=
| NilInterface
| Bool (b : bool)
| Int (z : Z)
| Str (s : string)
| Struct (ty : string) (fields : list (string * value))
| Pointer (ty : string) (target : option value)    (* [None] is a nil pointer *)
| OtherKind (ty : string).                         (* a map, slice, func, ...: none of the kinds above *)

(** A [reflect.Value]: the zero Value (kind Invalid) or a Go value. *)
Inductive Value : Type :=
| Invalid
| Of (v : value).

(** [reflect.ValueOf(i)]: the zero Value for a nil interface. *)
Definition ValueOf (i : value) : Value :=
  match i with
  | NilInterface => Invalid
  | v => Of v
  end.

(** [v.Elem()]: the value a pointer points to, the zero Value for a nil
    pointer; it panics if [v]'s kind is not Interface or Ptr. *)
Definition Elem (v : Value) : Go.outcome Value :=
  match v with
  | Of (Pointer _ (Some target)) => Go.Returned (Of target)
  | Of (Pointer _ None) => Go.Returned Invalid
  | _ => Go.Panicked (Go.ReflectKind "reflect.Value.Elem")
  end.

Fixpoint field (name : string) (fields : list (string * value)) : option value :=
  match fields with
  | [] => None
  | (n, v) :: rest => if String.eqb n name then Some v else field name rest
  end.

(** [v.FieldByName(name)]: the struct field with that name, the zero Value
    if there is none; it panics if [v]'s kind is not Struct. *)
Definition FieldByName (v : Value) (name : string) : Go.outcome Value :=
  match v with
  | Of (Struct _ fields) =>
      match field name fields with
      | Some f => Go.Returned (Of f)
      | None => Go.Returned Invalid
      end
  | _ => Go.Panicked (Go.ReflectKind "reflect.Value.FieldByName")
  end.

Definition type_name (v : value) : string :=
  match v with
  | NilInterface => "nil"
  | Bool _ => "bool"
  | Int _ => "int"
  | Str _ => "string"
  | Struct ty _ => ty
  | Pointer ty _ => "*" +:+ ty
  | OtherKind ty => ty
  end.

(** [v.String()]: the string itself for a string; for any other kind it
    does not panic and returns "<T Value>" for the type T, "<invalid Value>"
    for the zero Value. *)
Definition String (v : Value) : string :=
  match v with
  | Of (Str s) => s
  | Of other => "<" +:+ type_name other +:+ " Value>"
  | Invalid => "<invalid Value>"
  end.

End reflect.

(** ** Package yaml (gopkg.in/yaml.v2), on block mappings of plain scalars

    The library is an external collaborator of the client. What is modelled
    here is its two phases on the documents the ConfigMap payload is written
    in: the parser, for documents that are empty or one block mapping at
    column 0 with one [key: value] entry per line, both plain scalars; and
    the decoder of such a mapping into a struct with [int] and [bool]
    fields, which is where a payload is decoded only in part. Any other
    text is reported by [parse] as a failure: the model makes no statement
    about what the library does with it. *)

Module yaml.

Definition newline : ascii := ascii_of_nat 10.

Definition between (lo hi : nat) (a : ascii) : bool :=
  Nat.leb lo (nat_of_ascii a) && Nat.leb (nat_of_ascii a) hi.

Definition is_digit (a : ascii) : bool := between 48 57 a.
Definition is_letter (a : ascii) : bool := between 65 90 a || between 97 122 a.
Definition is_space (a : ascii) : bool := Ascii.eqb a " ".

(** Characters of a key of the modelled documents: letters, digits, [_]. *)
Definition is_key_char (a : ascii) : bool :=
  is_letter a || is_digit a || Ascii.eqb a "_".

Fixpoint span (p : ascii -> bool) (l : list ascii) : list ascii * list ascii :=
  match l with
  | a :: rest =>
      if p a then let '(yes, no) := span p rest in (a :: yes, no) else ([], l)
  | [] => ([], [])
  end.

Fixpoint drop_spaces (l : list ascii) : list ascii :=
  match l with
  | a :: rest => if is_space a then drop_spaces rest else l
  | [] => []
  end.

Fixpoint split_lines (cur : list ascii) (l : list ascii) : list (list ascii) :=
  match l with
  | [] => [rev cur]
  | a :: rest =>
      if Ascii.eqb a newline then rev cur :: split_lines [] rest
      else split_lines (a :: cur) rest
  end.

(** The value of the decimal digits [l], most significant first. *)
Fixpoint digits_value (acc : Z) (l : list ascii) : Z :=
  match l with
  | [] => acc
  | a :: rest => digits_value (10 * acc + Z.of_nat (nat_of_ascii a - 48)) rest
  end.

Definition min_int : Z := - 2 ^ 63.
Definition max_int : Z := 2 ^ 63 - 1.

(** A decimal integer of the modelled documents: [0], or an optional [-]
    and digits that start with a non-zero one, within the range of Go's
    64-bit [int]. (Other spellings of integers, such as hexadecimal, octal,
    [+5] or [1_000], integers beyond 64 bits and floats are outside the
    modelled documents.) *)
Definition decimal (l : list ascii) : option Z :=
  let unsigned (d : list ascii) : option Z :=
    match d with
    | [] => None
    | a :: rest =>
        if forallb is_digit d && (negb (Ascii.eqb a "0") || Nat.eqb (length rest) 0)
        then Some (digits_value 0 d) else None
    end in
  let signed : option Z :=
    match l with
    | "-"%char :: d =>
        match unsigned d with
        | Some z => if Z.eqb z 0 then None else Some (- z)%Z
        | None => None
        end
    | _ => unsigned l
    end in
  match signed with
  | Some z => if Z.leb min_int z && Z.leb z max_int then Some z else None
  | None => None
  end.

(** A plain value of the modelled documents: nothing, [~], a word of
    letters, or a decimal integer. *)
Definition is_plain_value (l : list ascii) : bool :=
  match l with
  | [] => true
  | ["~"%char] => true
  | _ => forallb is_letter l || bool_decide (is_Some (decimal l))
  end.

(** A plain scalar node without a tag: the line it starts on (from 0) and
    its text. *)
Record scalar_node : Type := Scalar { line : nat; value : string }.

(** The root of a parsed document of the modelled kind: a mapping node,
    its children the key and value nodes in document order. *)
Inductive node : Type :=
| MappingNode (children : list (scalar_node * scalar_node)).

Inductive scanned : Type :=
| Blank
| Entry (key val : list ascii)
| Unsupported.

(** One line: blank, a comment from column 0, or [key:] followed by
    nothing or by spaces and a plain value. *)
Definition scan_line (l : list ascii) : scanned :=
  match drop_spaces l with
  | [] => Blank
  | _ =>
      match l with
      | "#"%char :: _ => Blank
      | _ =>
          match span is_key_char l with
          | ((_ :: _) as key, ":"%char :: after) =>
              match after with
              | [] => Entry key []
              | a :: _ =>
                  if is_space a then
                    let '(val, trailing) := span (fun c => negb (is_space c)) (drop_spaces after) in
                    match drop_spaces trailing with
                    | [] => if is_plain_value val then Entry key val else Unsupported
                    | _ => Unsupported
                    end
                  else Unsupported
              end
          | _ => Unsupported
          end
      end
  end.

Fixpoint scan (n : nat) (lines : list (list ascii))
  : option (list (scalar_node * scalar_node)) :=
  match lines with
  | [] => Some []
  | l :: rest =>
      match scan_line l, scan (S n) rest with
      | Unsupported, _ | _, None => None
      | Blank, Some es => Some es
      | Entry k v, Some es =>
          Some ((Scalar n (string_of_list_ascii k), Scalar n (string_of_list_ascii v)) :: es)
      end
  end.

Inductive parsed : Type :=
| Document (root : option node)     (* [None]: the stream holds no document *)
| Failed (msg : string).

Definition parse (input : list ascii) : parsed :=
  match scan 0 (split_lines [] input) with
  | None => Failed "yaml: not a block mapping of plain scalars"
  | Some [] => Document None
  | Some children => Document (Some (MappingNode children))
  end.

(** What [resolve] makes of an untagged plain scalar of the modelled
    documents: the entries of the library's resolve table, then a decimal
    integer, else a string. *)
Inductive resolved : Type :=
| Null
| BoolOf (b : bool)
| IntOf (z : Z)
| StrOf (s : string).

Definition null_words : list string := [EmptyString; "~"; "null"; "Null"; "NULL"].
Definition true_words : list string :=
  ["y"; "Y"; "yes"; "Yes"; "YES"; "true"; "True"; "TRUE"; "on"; "On"; "ON"].
Definition false_words : list string :=
  ["n"; "N"; "no"; "No"; "NO"; "false"; "False"; "FALSE"; "off"; "Off"; "OFF"].

Definition one_of (s : string) (words : list string) : bool :=
  existsb (String.eqb s) words.

Definition resolve (s : string) : resolved :=
  if one_of s null_words then Null
  else if one_of s true_words then BoolOf true
  else if one_of s false_words then BoolOf false
  else match decimal (list_ascii_of_string s) with
       | Some z => IntOf z
       | None => StrOf s
       end.

Definition tag_of (r : resolved) : string :=
  match r with
  | Null => "!!null"
  | BoolOf _ => "!!bool"
  | IntOf _ => "!!int"
  | StrOf _ => "!!str"
  end.

(** [*yaml.TypeError]: the messages of the values that could not be
    decoded. A text that does not parse is an error of another type. *)
Inductive error : Type :=
| SyntaxError (msg : string)
| TypeError (errors : list string).

(** [d.terror(n, tag, out)]: the message
    "line L: cannot unmarshal TAG `VALUE` into TYPE", with a value of more
    than 10 bytes cut to its first 7. *)
Definition terror (n : scalar_node) (tag : string) (into : string) : string :=
  let shown :=
    if Nat.ltb 10 (String.length (value n))
    then " `" +:+ String.substring 0 7 (value n) +:+ "...`"
    else " `" +:+ value n +:+ "`" in
  "line " +:+ pretty (S (line n)) +:+ ": cannot unmarshal " +:+ tag +:+ shown +:+
  " into " +:+ into.

(** The fields the decoder finds in a struct type by reflection, each with
    the kind of its Go type and the way to store into it. *)
Inductive field (T : Type) : Type :=
| IntField (set : Z -> T -> T)
| BoolField (set : bool -> T -> T).
Arguments IntField {T} set.
Arguments BoolField {T} set.

(** [structInfo.FieldsMap]: the fields by their key in the [yaml:] tag. *)
Definition structInfo (T : Type) : Type := list (string * field T).

Fixpoint lookup_field {T} (name : string) (info : structInfo T) : option (field T) :=
  match info with
  | [] => None
  | (key, f) :: rest => if String.eqb key name then Some f else lookup_field name rest
  end.

(** [d.scalar(n, out)] for a field [out]: a null resets the field to its
    zero value; a value of the field's kind is stored (a resolved integer
    always fits the 64-bit [int] field); anything else is a type error,
    recorded, and the field keeps its value. *)
Definition scalar {T} (n : scalar_node) (f : field T) (out : T) : T * list string :=
  let r := resolve (value n) in
  match r, f with
  | Null, IntField set => (set 0%Z out, [])
  | Null, BoolField set => (set false out, [])
  | IntOf z, IntField set => (set z out, [])
  | BoolOf b, BoolField set => (set b out, [])
  | _, IntField _ => (out, [terror n (tag_of r) "int"])
  | _, BoolField _ => (out, [terror n (tag_of r) "bool"])
  end.

(** The key node decoded into a Go string: its text, or the empty string
    for a null. *)
Definition key_name (k : scalar_node) : string :=
  match resolve (value k) with
  | Null => EmptyString
  | _ => value k
  end.

(** [d.mappingStruct(n, out)], not strict: the entries are decoded in
    document order; a key that names no field is skipped; a type error does
    not stop the loop. *)
Fixpoint mappingStruct {T} (info : structInfo T)
    (children : list (scalar_node * scalar_node)) (out : T) : T * list string :=
  match children with
  | [] => (out, [])
  | (k, v) :: rest =>
      match lookup_field (key_name k) info with
      | Some f =>
          let '(out1, errs1) := scalar v f out in
          let '(out2, errs2) := mappingStruct info rest out1 in
          (out2, (errs1 ++ errs2)%list)
      | None => mappingStruct info rest out
      end
  end.

(** [yaml.Unmarshal(in, &out)]: a text that does not parse leaves [out]
    alone and is an error; a stream without a document leaves [out] alone;
    else the document is decoded into [out], and the type errors met on the
    way, if any, are returned together after the whole document was
    decoded. *)
Definition Unmarshal {T} (info : structInfo T) (input : list ascii) (out : T)
  : T * option error :=
  match parse input with
  | Failed msg => (out, Some (SyntaxError msg))
  | Document None => (out, None)
  | Document (Some (MappingNode children)) =>
      match mappingStruct info children out with
      | (out', []) => (out', None)
      | (out', errs) => (out', Some (TypeError errs))
      end
  end.

(** [err.Error()] *)
Definition Error (e : error) : string :=
  match e with
  | SyntaxError msg => msg
  | TypeError errors =>
      "yaml: unmarshal errors:" +:+
      fold_right (fun msg rest => String newline ("  " +:+ msg +:+ rest)) EmptyString errors
  end.

End yaml.

(** ** k8s.io/api/core/v1: the ConfigMap *)

Module v1.

Record ObjectMeta : Type := { Name : string; Namespace : string }.

Record ConfigMap : Type := {
  Meta : ObjectMeta;                 (* the embedded ObjectMeta *)
  Data : gmap string string;
}.

(** A [*v1.ConfigMap] as package reflect sees it: a pointer to a struct
    whose field ObjectMeta is a struct with the string field Namespace. *)
Definition reflected (cm : ConfigMap) : reflect.value :=
  reflect.Pointer "v1.ConfigMap" (Some (reflect.Struct "v1.ConfigMap"
    [ ("TypeMeta", reflect.Struct "v1.TypeMeta"
         [("Kind", reflect.Str "ConfigMap"); ("APIVersion", reflect.Str "v1")]);
      ("ObjectMeta", reflect.Struct "v1.ObjectMeta"
         [("Name", reflect.Str (Name (Meta cm)));
          ("GenerateName", reflect.Str EmptyString);
          ("Namespace", reflect.Str (Namespace (Meta cm)))]);
      ("Data", reflect.OtherKind "map[string]string");
      ("BinaryData", reflect.OtherKind "map[string][]uint8") ])).

End v1.

(** ** k8s.io/client-go/tools/cache: the informer's store *)

Module cache.

(** What a store holds as [interface{}]: a pointer to a ConfigMap (the
    informer stores the objects it decoded, never a nil pointer), or a
    value of some other dynamic type, given by the type's name. *)
Inductive object : Type :=
| ConfigMap (cm : v1.ConfigMap)
| OtherType (ty : string).

(** The three results of [GetByKey]; [item] is [None] for a nil interface. *)
Record found : Type := Found {
  item : option object;
  exists_ : bool;
  err : option string;
}.

(** The [cache.Store] interface, as far as the client calls it. *)
Class Store (St : Type) : Type := GetByKey : St -> string -> found.

(** The store an informer returns from [GetStore]: a map from keys to
    objects, whose [GetByKey] never fails. *)
#[global] Instance informerStore : Store (gmap string object) := fun m key =>
  match m !! key with
  | Some o => Found (Some o) true None
  | None => Found None false None
  end.

(** [cache.MetaNamespaceKeyFunc]: the key an informer stores an object
    under, "<namespace>/<name>", or "<name>" without a namespace. *)
Definition MetaNamespaceKeyFunc (cm : v1.ConfigMap) : string :=
  if String.eqb (v1.Namespace (v1.Meta cm)) EmptyString then v1.Name (v1.Meta cm)
  else v1.Namespace (v1.Meta cm) +:+ "/" +:+ v1.Name (v1.Meta cm).

(** The informer adding (or updating) an object it was sent. *)
Definition Add (cm : v1.ConfigMap) (m : gmap string object) : gmap string object :=
  <[MetaNamespaceKeyFunc cm := ConfigMap cm]> m.

End cache.

(** ** pkg/kubernetes: the event handlers behind the announcements *)

Module kubernetes.

(** Modelled from the spec: the kinds of "generic change notifications
    (kind: add/update/delete + reference to the object)"; the type is
    declared in pkg/kubernetes, outside client.go. *)
Inductive EventType : Type := Create | Update | Delete.

(** Modelled from the spec: what travels on the announcements channel, the
    kind of change and the object it was observed on. *)
Record Event : Type := { Kind : EventType; Value : reflect.value }.

(** The filter a provider passes to the handlers. *)
Definition observeFilter : Type := reflect.value -> Go.outcome bool.

(** Modelled from the spec: the two ways the spec gives for a handler to
    put an event on the channel. The handlers come from
    [GetKubernetesEventHandlers], a function of pkg/kubernetes that
    client.go calls and does not contain, so which of the two they use is
    not in client.go. [Plain] is the send statement, of which the spec says
    "the Announcement Relay's send may suspend if the channel is
    unbuffered/full"; [BestEffort] is "production is best-effort with
    drop-on-full". *)
Inductive sendForm : Type := Plain | BestEffort.

(** How far the watch loop got with the changes it observed: through all
    of them, suspended in the send of one of them, or ended by a panic of
    the filter. *)
Inductive progress : Type :=
| Delivered (ch : Go.chan Event)
| Suspended (ch : Go.chan Event) (ev : Event)
| HandlerPanicked (p : Go.panic).

(** Modelled from the spec: the send of a handler while no goroutine
    receives from the channel. With room in the buffer the event is
    queued; without room a plain send suspends (there is nobody to wake
    it), and a best-effort send drops the event. *)
Definition announce (form : sendForm) (ch : Go.chan Event) (ev : Event) : progress :=
  match Go.try_send ch ev with
  | Go.Sent ch' => Delivered ch'
  | Go.WouldBlock =>
      match form with
      | Plain => Suspended ch ev
      | BestEffort => Delivered ch
      end
  end.

(** Modelled from the spec: a handler run on one observed change. The
    spec: "Producers (the watch loop) push only events that passed the
    Namespace Filter Predicate". *)
Definition handle (form : sendForm) (shouldObserve : observeFilter)
    (ch : Go.chan Event) (ev : Event) : progress :=
  match shouldObserve (Value ev) with
  | Go.Returned true => announce form ch ev
  | Go.Returned false => Delivered ch
  | Go.Panicked p => HandlerPanicked p
  end.

(** Modelled from the spec: the watch loop calling the handlers once per
    observed change, "in the order the underlying watch observed them"; a
    handler that does not return keeps the loop from the changes after
    it. *)
Fixpoint relay (form : sendForm) (shouldObserve : observeFilter)
    (ch : Go.chan Event) (observed : list Event) : progress :=
  match observed with
  | [] => Delivered ch
  | ev :: rest =>
      match handle form shouldObserve ch ev with
      | Delivered ch' => relay form shouldObserve ch' rest
      | stuck => stuck
      end
  end.

End kubernetes.

(** ** Package configurator *)

Module configurator.

(** [osmConfig]: the shape of the "osm-config" ConfigMap. Go's [int] is a
    64-bit integer; the decoder stores nothing outside its range. *)
Record osmConfig : Type := {
  ConfigVersion : Z;                        (* yaml:"config_version" *)
  PermissiveTrafficPolicyMode : bool;       (* yaml:"permissive_traffic_policy_mode" *)
}.

(** [osmConfig{}], the zero value. *)
Definition zeroConfig : osmConfig :=
  {| ConfigVersion := 0; PermissiveTrafficPolicyMode := false |}.

(** The struct's fields as the yaml decoder finds them by their tags. *)
Definition osmConfigFields : yaml.structInfo osmConfig :=
  [ ("config_version",
     yaml.IntField (fun z c =>
       {| ConfigVersion := z;
          PermissiveTrafficPolicyMode := PermissiveTrafficPolicyMode c |}));
    ("permissive_traffic_policy_mode",
     yaml.BoolField (fun b c =>
       {| ConfigVersion := ConfigVersion c;
          PermissiveTrafficPolicyMode := b |})) ].

(** The yaml package the client is linked with: [yaml.Unmarshal] into an
    [osmConfig]. It returns the struct as it left it and the error. *)
Class Decoder : Type :=
  Unmarshal : list ascii -> osmConfig -> osmConfig * option yaml.error.

(** yaml.v2, on the documents modelled above. *)
Definition yaml_v2 : Decoder := yaml.Unmarshal osmConfigFields.

(** The fields of [Client] that are fixed at construction. (The struct is
    declared outside client.go; these are the fields [NewConfigurator]
    sets and the methods read. The channels and the store are shared with
    other goroutines and live in the state of the system, below.) *)
Record Client : Type := {
  osmNamespace : string;
  osmConfigMapName : string;
}.

(** The closure [shouldObserve] of [NewConfigurator]:
    [reflect.ValueOf(obj).Elem().FieldByName("ObjectMeta").FieldByName("Namespace").String()]
    compared with the watched namespace. *)
Definition shouldObserve (osmNamespace : string) (obj : reflect.value) : Go.outcome bool :=
  elem ← reflect.Elem (reflect.ValueOf obj);
  meta ← reflect.FieldByName elem "ObjectMeta";
  nsField ← reflect.FieldByName meta "Namespace";
  let ns := reflect.String nsField in
  mret (String.eqb ns osmNamespace).

(** [fmt.Sprintf("%s/%s", c.osmNamespace, c.osmConfigMapName)] *)
Definition getConfigMapCacheKey (c : Client) : string :=
  osmNamespace c +:+ "/" +:+ osmConfigMapName c.

(** The order in which one execution of a [range] statement visits the
    entries of a map. Go leaves it unspecified, and it may differ from one
    execution to the next: any order that visits each entry once. *)
Definition iteration : Type := gmap string string -> list (string * string).

Definition visits_each_entry_once (order : iteration) : Prop :=
  forall m, order m ≡ₚ map_to_list m.

(** The type assertion of [item] to [*v1.ConfigMap], in its unchecked
    form: it panics unless the dynamic type of [item] is [*v1.ConfigMap]. *)
Definition assertConfigMap (item : option cache.object) : Go.outcome v1.ConfigMap :=
  match item with
  | Some (cache.ConfigMap cm) => Go.Returned cm
  | _ => Go.Panicked (Go.TypeAssertion "*v1.ConfigMap")
  end.

(** The loop [for _, cfg := range configMap.Data { config = []byte(cfg) }],
    from [var config []byte]. *)
Definition rangeData (visited : list (string * string)) : list ascii :=
  fold_left (fun (_ : list ascii) (entry : string * string) =>
               list_ascii_of_string (snd entry)) visited [].

Definition logIf (e : option string) (msg : string) : Go.M unit :=
  match e with
  | Some cause => Go.emit (Go.LogError (Some cause) msg)
  | None => mret tt
  end.

(** [(c *Client) getConfigMap() *osmConfig], reading the store as it is at
    the call. *)
Definition getConfigMap {St : Type} {storeOps : cache.Store St} {decoder : Decoder}
    (c : Client) (store : St) (order : iteration) : Go.M osmConfig :=
  let configMapCacheKey := getConfigMapCacheKey c in
  let got := cache.GetByKey store configMapCacheKey in
  logIf (cache.err got)
        ("Error getting ConfigMap by key=" +:+ configMapCacheKey +:+ " from cache") ;;
  if negb (cache.exists_ got) then mret zeroConfig
  else
    configMap ← Go.lift (assertConfigMap (cache.item got));
    if Nat.eqb (size (v1.Data configMap)) 0 then
      Go.emit (Go.LogError None
        ("The ConfigMap " +:+ configMapCacheKey +:+ " does not contain any Data")) ;;
      mret zeroConfig
    else
      let config := rangeData (order (v1.Data configMap)) in
      let '(conf, err) := Unmarshal config zeroConfig in
      logIf (yaml.Error <$> err)
            ("Error marshaling ConfigMap " +:+ osmConfigMapName c +:+
             " with content " +:+ string_of_list_ascii config) ;;
      mret conf.

(** The diagnostics of a decode, as [getConfigMap] words them. *)
Definition decodeDiagnostics (c : Client) (config : list ascii) (err : option yaml.error)
  : list Go.diag :=
  match err with
  | Some e =>
      [Go.LogError (Some (yaml.Error e))
         ("Error marshaling ConfigMap " +:+ osmConfigMapName c +:+
          " with content " +:+ string_of_list_ascii config)]
  | None => []
  end.

(** The watched object is not in the store. *)
Definition absent (c : Client) (store : gmap string cache.object) : Prop :=
  store !! getConfigMapCacheKey c = None.

(** The watched object is in the store and its payload map has no entry. *)
Definition withoutPayload (c : Client) (store : gmap string cache.object) : Prop :=
  exists cm, store !! getConfigMapCacheKey c = Some (cache.ConfigMap cm) /\ v1.Data cm = ∅.

(** Every item of the store is a [*v1.ConfigMap]. *)
Definition holdsConfigMaps (store : gmap string cache.object) : Prop :=
  forall key o, store !! key = Some o -> exists cm, o = cache.ConfigMap cm.

(** *** The component at run time

    [NewConfigurator] allocates the two channels, takes the informer's
    store, registers the event handlers and starts [run] in a goroutine of
    its own. The state below is what the goroutines share; an execution is
    a sequence of events, each a step of [run] (the sync coordinator) or of
    its environment: the informer, the owner of the stop channel, and the
    goroutines waiting for readiness. The environment is not constrained
    beyond what the client relies on: the informer touches the store only
    once it runs, and [cache.WaitForCacheSync] returns true only after it
    saw [HasSynced] true and false only after it saw the stop channel
    closed. *)

(** Where the goroutine executing [run] stands. *)
Inductive pc : Type :=
| AtStart          (* go c.informer.Run(stop) and the two Info lines are next *)
| AtWait           (* inside cache.WaitForCacheSync(stop, c.informer.HasSynced) *)
| AtFailed         (* the wait returned false: log the error and return *)
| AtClose          (* the wait returned true: close(c.cacheSynced) is next *)
| AtFinished       (* the channel is closed: the last Info line is next *)
| Done             (* run returned *)
| Crashed (p : Go.panic).

Record system : Type := System {
  stop : bool;                                 (* the stop channel was closed *)
  running : bool;                              (* c.informer.Run was started *)
  synced : bool;                               (* what c.informer.HasSynced() returns *)
  store : gmap string cache.object;            (* c.cache *)
  cacheSynced : Go.chan unit;                  (* c.cacheSynced *)
  announcements : Go.chan kubernetes.Event;    (* c.announcements *)
  coordinator : pc;
  log : list Go.diag;
  closes : nat;                                (* executions of close(c.cacheSynced) so far *)
  waiting : nat;                               (* goroutines blocked in a receive from c.cacheSynced *)
  released : nat;                              (* receives from c.cacheSynced that returned *)
}.

(** [NewConfigurator(kubeClient, stop, osmNamespace, osmConfigMapName)]:
    the client and the state it starts in. Both channels come from
    [make(chan interface{})], without a buffer; [go client.run(stop)] puts
    the coordinator at the start of [run]. The caller's stop channel may
    already be closed. The handlers it registers with the informer get
    [client.announcements] and the closure [shouldObserve]; they are the
    ones of [kubernetes.relay]. *)
Definition NewConfigurator (stopClosed : bool) (osmNamespace osmConfigMapName : string)
  : Client * system :=
  ({| osmNamespace := osmNamespace; osmConfigMapName := osmConfigMapName |},
   {| stop := stopClosed; running := false; synced := false; store := ∅;
      cacheSynced := Go.make 0; announcements := Go.make 0;
      coordinator := AtStart; log := []; closes := 0; waiting := 0; released := 0 |}).

Inductive event : Type :=
(* the goroutine of run *)
| RunStart            (* lines 60-62 *)
| WaitSynced          (* line 63: the poll saw HasSynced() = true *)
| WaitStopped         (* line 63: the poll saw the stop channel closed *)
| RunFailed           (* lines 64-65 *)
| RunClose            (* line 69 *)
| RunFinished         (* line 70 *)
(* the environment *)
| StopRequest                         (* the owner closes the stop channel *)
| InformerSynced                      (* the initial listing is in the store *)
| InformerAdd (cm : v1.ConfigMap)     (* the informer stores an added or updated object *)
| InformerDelete (key : string)
| ObserverWaits                       (* a goroutine starts a receive from c.cacheSynced *)
| ObserverReleased.                   (* such a receive returns: the channel is closed *)

Definition of_coordinator (e : event) : bool :=
  match e with
  | RunStart | WaitSynced | WaitStopped | RunFailed | RunClose | RunFinished => true
  | _ => false
  end.

Definition goto (s : system) (next : pc) (lines : list Go.diag) : system :=
  System (stop s) (running s) (synced s) (store s) (cacheSynced s) (announcements s)
         next (log s ++ lines) (closes s) (waiting s) (released s).

Definition startInformer (s : system) : system :=
  System (stop s) true (synced s) (store s) (cacheSynced s) (announcements s)
         (coordinator s) (log s) (closes s) (waiting s) (released s).

Definition closeCacheSynced (s : system) : system :=
  match Go.close (cacheSynced s) with
  | Go.Returned ch =>
      System (stop s) (running s) (synced s) (store s) ch (announcements s)
             AtFinished (log s) (S (closes s)) (waiting s) (released s)
  | Go.Panicked p => goto s (Crashed p) []
  end.

Definition withSignals (s : system) (stop' synced' : bool) : system :=
  System stop' (running s) synced' (store s) (cacheSynced s) (announcements s)
         (coordinator s) (log s) (closes s) (waiting s) (released s).

Definition withStore (s : system) (store' : gmap string cache.object) : system :=
  System (stop s) (running s) (synced s) store' (cacheSynced s) (announcements s)
         (coordinator s) (log s) (closes s) (waiting s) (released s).

Definition withObservers (s : system) (waiting' released' : nat) : system :=
  System (stop s) (running s) (synced s) (store s) (cacheSynced s) (announcements s)
         (coordinator s) (log s) (closes s) waiting' released'.

(** One event; [None] when it cannot happen in [s]. *)
Definition step (c : Client) (e : event) (s : system) : option system :=
  match e, coordinator s with
  | RunStart, AtStart =>
      Some (goto (startInformer s) AtWait
        [Go.LogInfo ("Started OSM ConfigMap informer - watching for " +:+ getConfigMapCacheKey c);
         Go.LogInfo "[ConfigMap Client] Waiting for ConfigMap informer's cache to sync"])
  | WaitSynced, AtWait => if synced s then Some (goto s AtClose []) else None
  | WaitStopped, AtWait => if stop s then Some (goto s AtFailed []) else None
  | RunFailed, AtFailed =>
      Some (goto s Done [Go.LogError None "Failed initial cache sync for ConfigMap informer"])
  | RunClose, AtClose => Some (closeCacheSynced s)
  | RunFinished, AtFinished =>
      Some (goto s Done [Go.LogInfo "[ConfigMap Client] Cache sync for ConfigMap informer finished"])
  | StopRequest, _ => Some (withSignals s true (synced s))
  | InformerSynced, _ =>
      if running s then Some (withSignals s (stop s) true) else None
  | InformerAdd cm, _ =>
      if running s then Some (withStore s (cache.Add cm (store s))) else None
  | InformerDelete key, _ =>
      if running s then Some (withStore s (delete key (store s))) else None
  | ObserverWaits, _ => Some (withObservers s (S (waiting s)) (released s))
  | ObserverReleased, _ =>
      match waiting s with
      | S n => if Go.closed (cacheSynced s) then Some (withObservers s n (S (released s))) else None
      | O => None
      end
  | _, _ => None
  end.

(** What the coordinator's position says about the readiness signal: the
    channel is open and was never closed until [close(c.cacheSynced)] ran,
    which happens after a poll saw the store synced, and then it is closed
    and was closed once. *)
Definition readiness (s : system) : Prop :=
  match coordinator s with
  | AtStart | AtWait | AtFailed =>
      Go.closed (cacheSynced s) = false /\ closes s = 0
  | AtClose =>
      Go.closed (cacheSynced s) = false /\ closes s = 0 /\ synced s = true
  | AtFinished =>
      Go.closed (cacheSynced s) = true /\ closes s = 1 /\ synced s = true
  | Done =>
      (Go.closed (cacheSynced s) = false /\ closes s = 0) \/
      (Go.closed (cacheSynced s) = true /\ closes s = 1 /\ synced s = true)
  | Crashed _ => False
  end.

(** The state [NewConfigurator] returns. *)
Definition initial (c : Client) (stopClosed : bool) : system :=
  snd (NewConfigurator stopClosed (osmNamespace c) (osmConfigMapName c)).

(** An execution: the events in order, from [s]. *)
Fixpoint execute (c : Client) (events : list event) (s : system) : option system :=
  match events with
  | [] => Some s
  | e :: rest =>
      match step c e s with
      | Some s' => execute c rest s'
      | None => None
      end
  end.

(** The states the component built by [NewConfigurator] can be in. *)
Definition reachable (c : Client) (s : system) : Prop :=
  exists stopClosed events, execute c events (initial c stopClosed) = Some s.

(** The namespace field of an observed object, for an object of the
    shape the filter reads: a pointer to a struct whose field ObjectMeta is
    a struct with a string field Namespace. *)
Definition namespaceOf (obj : reflect.value) : option string :=
  match obj with
  | reflect.Pointer _ (Some (reflect.Struct _ fields)) =>
      match reflect.field "ObjectMeta" fields with
      | Some (reflect.Struct _ meta) =>
          match reflect.field "Namespace" meta with
          | Some (reflect.Str ns) => Some ns
          | _ => None
          end
      | _ => None
      end
  | _ => None
  end.

(** An object without any field: a pointer to an empty struct. *)
Definition bareObject : reflect.value :=
  reflect.Pointer "struct {}" (Some (reflect.Struct "struct {}" [])).

(** An object whose ObjectMeta has no Namespace field. *)
Definition clusterScoped : reflect.value :=
  reflect.Pointer "Node" (Some (reflect.Struct "Node"
    [("ObjectMeta", reflect.Struct "Meta" [("Name", reflect.Str "node-1")])])).

(** *** Sample inputs

    The client of the spec's scenarios, a payload that decodes, one that
    decodes in part, an execution in which the store syncs while observers
    wait and stop is requested more than once, and one that is stopped
    before the store syncs. *)

Definition osmClient : Client :=
  {| osmNamespace := "osm-system"; osmConfigMapName := "osm-config" |}.

Definition lf : string := String yaml.newline EmptyString.

Definition validPayload : string :=
  "config_version: 2" +:+ lf +:+ "permissive_traffic_policy_mode: true" +:+ lf.

Definition halfValidPayload : string :=
  "config_version: abc" +:+ lf +:+ "permissive_traffic_policy_mode: true" +:+ lf.

Definition configMapOf (namespace : string) (data : gmap string string) : v1.ConfigMap :=
  {| v1.Meta := {| v1.Name := "osm-config"; v1.Namespace := namespace |};
     v1.Data := data |}.

(** Two payload entries that decode to different records. *)
Definition twoEntries : gmap string string :=
  {[ "a.yaml" := "config_version: 1" +:+ lf; "b.yaml" := "config_version: 2" +:+ lf ]}.

(** The map iteration visiting the entries in the opposite order. *)
Definition backwards : iteration := fun m => reverse (map_to_list m).

Definition busyRun : list event :=
  [ObserverWaits; RunStart; InformerAdd (configMapOf "osm-system" {[ "osm.yaml" := validPayload ]});
   InformerSynced; ObserverWaits; StopRequest; WaitSynced; StopRequest; RunClose;
   ObserverReleased; RunFinished; ObserverReleased; StopRequest; ObserverWaits].

Definition stoppedRun : list event :=
  [ObserverWaits; StopRequest; RunStart; StopRequest].

(** *** Vocabulary of the further properties *)

(** Whether a name contains the separator of the cache key. *)
Fixpoint hasSlash (s : string) : bool :=
  match s with
  | EmptyString => false
  | String a rest => Ascii.eqb a "/" || hasSlash rest
  end.

(** The line [getConfigMap] logs when [GetByKey] returns an error. *)
Definition storeErrorLine (c : Client) (e : string) : Go.diag :=
  Go.LogError (Some e)
    ("Error getting ConfigMap by key=" +:+ getConfigMapCacheKey c +:+ " from cache").

(** A store whose [GetByKey] returns an error with every lookup and still
    hands out what it holds: an implementation of [cache.Store] other than
    the informer's. *)
Record failingStore : Type := FailingStore {
  held : gmap string cache.object;
  failure : string;
}.

#[global] Instance failingStoreOps : cache.Store failingStore := fun st key =>
  match held st !! key with
  | Some o => cache.Found (Some o) true (Some (failure st))
  | None => cache.Found None false (Some (failure st))
  end.

(** The lines of [run], in the order it logs them. *)
Definition startLines (c : Client) : list Go.diag :=
  [Go.LogInfo ("Started OSM ConfigMap informer - watching for " +:+ getConfigMapCacheKey c);
   Go.LogInfo "[ConfigMap Client] Waiting for ConfigMap informer's cache to sync"].

Definition failedLine : Go.diag :=
  Go.LogError None "Failed initial cache sync for ConfigMap informer".

Definition finishedLine : Go.diag :=
  Go.LogInfo "[ConfigMap Client] Cache sync for ConfigMap informer finished".

(** What [run] has logged, by where it stands; at its return, which of its
    two last lines it logged goes with the state of the channel. *)
Definition journal (c : Client) (s : system) : Prop :=
  match coordinator s with
  | AtStart => log s = []
  | AtWait | AtFailed | AtClose | AtFinished => log s = startLines c
  | Done =>
      (log s = (startLines c ++ [failedLine])%list /\ Go.closed (cacheSynced s) = false) \/
      (log s = (startLines c ++ [finishedLine])%list /\ Go.closed (cacheSynced s) = true)
  | Crashed _ => True
  end.

(** While nobody has closed the stop channel, [run] has not taken the
    failure branch. *)
Definition unstopped (s : system) : Prop :=
  stop s = false ->
  match coordinator s with
  | AtFailed => False
  | Done => Go.closed (cacheSynced s) = true
  | _ => True
  end.

(** What one entry of the mapping does to the record. *)
Definition entryEffect (k v : yaml.scalar_node) (out : osmConfig) : osmConfig :=
  if String.eqb "config_version" (yaml.key_name k) then
    match yaml.resolve (yaml.value v) with
    | yaml.Null =>
        {| ConfigVersion := 0;
           PermissiveTrafficPolicyMode := PermissiveTrafficPolicyMode out |}
    | yaml.IntOf z =>
        {| ConfigVersion := z;
           PermissiveTrafficPolicyMode := PermissiveTrafficPolicyMode out |}
    | _ => out
    end
  else if String.eqb "permissive_traffic_policy_mode" (yaml.key_name k) then
    match yaml.resolve (yaml.value v) with
    | yaml.Null =>
        {| ConfigVersion := ConfigVersion out; PermissiveTrafficPolicyMode := false |}
    | yaml.BoolOf b =>
        {| ConfigVersion := ConfigVersion out; PermissiveTrafficPolicyMode := b |}
    | _ => out
    end
  else out.

(** The mapping has an entry that turns the permissive mode on. *)
Definition setsPermissive (children : list (yaml.scalar_node * yaml.scalar_node)) : Prop :=
  exists k v, (k, v) ∈ children /\
              yaml.key_name k = "permissive_traffic_policy_mode" /\
              yaml.resolve (yaml.value v) = yaml.BoolOf true.

(** The mapping has an entry that sets the version to [z]. *)
Definition setsVersion (z : Z) (children : list (yaml.scalar_node * yaml.scalar_node)) : Prop :=
  exists k v, (k, v) ∈ children /\
              yaml.key_name k = "config_version" /\
              yaml.resolve (yaml.value v) = yaml.IntOf z.

(** A change observed on the ConfigMap "osm-config" of a namespace. *)
Definition changeIn (namespace : string) (kind : kubernetes.EventType) : kubernetes.Event :=
  {| kubernetes.Kind := kind; kubernetes.Value := v1.reflected (configMapOf namespace ∅) |}.

(** An execution in which the store syncs and nobody asks to stop. *)
Definition quietRun : list event :=
  [ObserverWaits; RunStart; InformerSynced; ObserverWaits].

End configurator.

(** * Properties *)

Import configurator.

(** ** The config accessor *)

Section Accessor.

Context {decoder : Decoder}.
Implicit Types (c : Client) (store : gmap string cache.object) (order : iteration).

(** Over any store: when [GetByKey] reports that the key does not exist,
    the call returns the zero record, after logging the error if there was
    one. *)
Lemma getConfigMap_not_exists {St : Type} {storeOps : cache.Store St}
    c (st : St) order :
  cache.exists_ (cache.GetByKey st (getConfigMapCacheKey c)) = false ->
  fst (Go.exec (getConfigMap c st order)) = Go.Returned zeroConfig.
Proof.
  intros Hmissing. unfold Go.exec, getConfigMap. rewrite Hmissing.
  by destruct (cache.err (cache.GetByKey st (getConfigMapCacheKey c))).
Qed.

(** [getConfigMap] over the informer's store, case by case on what the
    store holds under the watched key. *)
Lemma getConfigMap_cases c store order log :
  getConfigMap c store order log =
  match store !! getConfigMapCacheKey c with
  | None => (Go.Returned zeroConfig, log)
  | Some (cache.OtherType _) => (Go.Panicked (Go.TypeAssertion "*v1.ConfigMap"), log)
  | Some (cache.ConfigMap cm) =>
      if Nat.eqb (size (v1.Data cm)) 0 then
        (Go.Returned zeroConfig,
         log ++ [Go.LogError None ("The ConfigMap " +:+ getConfigMapCacheKey c +:+
                                   " does not contain any Data")])
      else
        let config := rangeData (order (v1.Data cm)) in
        (Go.Returned (fst (Unmarshal config zeroConfig)),
         log ++ decodeDiagnostics c config (snd (Unmarshal config zeroConfig)))
  end%list.
Proof.
  unfold getConfigMap, cache.GetByKey, cache.informerStore.
  destruct (store !! getConfigMapCacheKey c) as [[cm | ty] | ]; cbn; try reflexivity.
  unfold mbind, go_bind, Go.bind, Go.lift; cbn.
  destruct (Nat.eqb (size (v1.Data cm)) 0); [reflexivity | ].
  destruct (Unmarshal _ zeroConfig) as [conf [e | ]]; cbn.
  - reflexivity.
  - unfold mret, go_ret, Go.ret. by rewrite app_nil_r.
Qed.

(** A call that finds nothing under the watched key, or a ConfigMap
    without payload, returns the zero record. *)
Lemma getConfigMap_nothing_to_decode c store order :
  absent c store \/ withoutPayload c store ->
  fst (Go.exec (getConfigMap c store order)) = Go.Returned zeroConfig.
Proof.
  unfold Go.exec. rewrite getConfigMap_cases.
  intros [Habsent | (cm & Hfound & Hempty)].
  - unfold absent in Habsent. by rewrite Habsent.
  - rewrite Hfound, Hempty, map_size_empty. reflexivity.
Qed.

(** The loop keeps the value of the entry visited last. *)
Lemma rangeData_last (visited : list (string * string)) :
  rangeData visited =
  match last visited with
  | Some entry => list_ascii_of_string (snd entry)
  | None => []
  end.
Proof.
  unfold rangeData.
  induction visited as [ | entry rest IH] using rev_ind; [reflexivity | ].
  by rewrite fold_left_app, last_snoc.
Qed.

(** A map with one entry is visited in one way. *)
Lemma order_singleton order (name payload : string) :
  visits_each_entry_once order -> order {[ name := payload ]} = [(name, payload)].
Proof.
  intros Hvalid. specialize (Hvalid {[ name := payload ]}).
  rewrite map_to_list_singleton in Hvalid.
  by apply Permutation_singleton_r in Hvalid.
Qed.

(** Two lists with the same elements, at most one, are the same list. *)
Lemma short_permutation {A} (l1 l2 : list A) :
  l1 ≡ₚ l2 -> length l2 <= 1 -> l1 = l2.
Proof.
  intros Hperm Hshort.
  destruct l2 as [ | x [ | y rest]]; cbn in Hshort; [ | | lia].
  - by apply Permutation_nil_r in Hperm.
  - by apply Permutation_singleton_r in Hperm.
Qed.

End Accessor.

(** ** Executions of the component *)

Section Executions.

Variable c : Client.

(** A property that holds at the start and that no event breaks holds
    along every execution. *)
Lemma execute_preserves (P : system -> Prop) :
  (forall e s s', P s -> step c e s = Some s' -> P s') ->
  forall events s s', P s -> execute c events s = Some s' -> P s'.
Proof.
  intros Hstep events. induction events as [ | e rest IH]; intros s s' HP Hexec.
  - cbn in Hexec. by inversion Hexec; subst.
  - cbn in Hexec. destruct (step c e s) as [s1 | ] eqn:Hs; [ | discriminate].
    eapply IH; [ | exact Hexec]. eauto.
Qed.

(** Case analysis on an event that happened. *)
Ltac step_cases e s H :=
  unfold step in H;
  destruct e; destruct (coordinator s) eqn:?;
  try discriminate H;
  try (destruct (waiting s) eqn:?; try discriminate H);
  repeat match type of H with
         | context [if ?b then _ else _] => destruct b eqn:?
         end;
  try discriminate H; inversion H; subst; clear H.

Lemma step_readiness e s s' : readiness s -> step c e s = Some s' -> readiness s'.
Proof.
  unfold readiness. intros Hinv Hstep.
  step_cases e s Hstep;
    repeat match goal with
           | H : coordinator _ = _ |- _ => rewrite H in Hinv
           end;
    unfold closeCacheSynced, Go.close; cbn in *;
    repeat match goal with
           | H : coordinator _ = _ |- _ => rewrite H
           | H : Go.closed _ = _ |- _ => rewrite H
           end; cbn; try tauto.
  all: destruct Hinv as (Hopen & Hcount & Hsync);
       try (rewrite Hopen; cbn); try rewrite Hcount; auto.
Qed.

Lemma initial_readiness stopClosed : readiness (initial c stopClosed).
Proof. cbn. auto. Qed.

Lemma reachable_readiness s : reachable c s -> readiness s.
Proof.
  intros (stopClosed & events & Hexec).
  eapply (execute_preserves readiness); [ | | exact Hexec].
  - intros e s1 s2. apply step_readiness.
  - apply initial_readiness.
Qed.

(** A closed channel stays closed, whatever happens next. *)
Lemma step_stays_closed e s s' :
  Go.closed (cacheSynced s) = true -> step c e s = Some s' ->
  Go.closed (cacheSynced s') = true.
Proof.
  intros Hclosed Hstep.
  step_cases e s Hstep; unfold closeCacheSynced, Go.close; cbn;
    try rewrite Hclosed; cbn; auto.
Qed.

(** Until the informer runs, the store is as [NewConfigurator] got it:
    empty. *)
Lemma step_store_empty e s s' :
  (running s = false -> store s = ∅) -> step c e s = Some s' ->
  running s' = false -> store s' = ∅.
Proof.
  intros Hinv Hstep.
  step_cases e s Hstep; unfold closeCacheSynced; cbn;
    try (destruct (Go.close (cacheSynced s)); cbn); try tauto; try discriminate.
  all: match goal with
       | H : running ?x = true |- _ => rewrite H; discriminate
       end.
Qed.

Lemma reachable_store_empty s : reachable c s -> running s = false -> store s = ∅.
Proof.
  intros (stopClosed & events & Hexec).
  eapply (execute_preserves (fun s => running s = false -> store s = ∅));
    [ | | exact Hexec].
  - intros e s1 s2. apply step_store_empty.
  - reflexivity.
Qed.

End Executions.

(** ** The readiness signal *)

(** C4: along every execution of the component [NewConfigurator] builds,
    with any number of waiting observers and of stop requests among its
    events, [close(c.cacheSynced)] has run at most once, no second close
    has made [run] panic, and once the channel is closed it is closed in
    every later state. *)
Theorem cacheSynced_closed_at_most_once c stopClosed events s :
  execute c events (initial c stopClosed) = Some s ->
  closes s <= 1 /\
  (forall p, coordinator s <> Crashed p) /\
  (Go.closed (cacheSynced s) = true ->
   forall later s', execute c later s = Some s' -> Go.closed (cacheSynced s') = true).
Proof.
  intros Hexec.
  assert (Hinv : readiness s) by (apply (reachable_readiness c); red; eauto).
  split; [ | split].
  - unfold readiness in Hinv. destruct (coordinator s); intuition lia.
  - intros p Hp. unfold readiness in Hinv. by rewrite Hp in Hinv.
  - intros Hclosed later s' Hlater.
    eapply (execute_preserves c (fun x => Go.closed (cacheSynced x) = true));
      [ | exact Hclosed | exact Hlater].
    intros e s1 s2. apply step_stays_closed.
Qed.

Lemma cacheSynced_closed_at_most_once_witness :
  match execute osmClient busyRun (initial osmClient false) with
  | Some s => closes s <= 1 /\ (forall p, coordinator s <> Crashed p)
  | None => False
  end.
Proof.
  destruct (execute osmClient busyRun (initial osmClient false)) as [s | ] eqn:Hexec.
  - destruct (cacheSynced_closed_at_most_once osmClient false busyRun s Hexec)
      as (Honce & Hsafe & _).
    exact (conj Honce Hsafe).
  - vm_compute in Hexec. discriminate Hexec.
Defined.

(** C8: in every execution in which the store has not reported its
    initial listing as synced, the readiness signal is open and was never
    closed; and once the stop signal has fired, [run] returns from there by
    its own steps, the signal still open. So the signal is closed only
    after the sync was seen. *)
Theorem run_returns_without_closing c stopClosed events s :
  execute c events (initial c stopClosed) = Some s ->
  synced s = false ->
  Go.closed (cacheSynced s) = false /\ closes s = 0 /\
  (stop s = true ->
   exists steps s',
     forallb of_coordinator steps = true /\
     execute c steps s = Some s' /\
     coordinator s' = Done /\
     Go.closed (cacheSynced s') = false /\ closes s' = 0).
Proof.
  intros Hexec Hsync.
  assert (Hinv : readiness s) by (apply (reachable_readiness c); red; eauto).
  unfold readiness in Hinv.
  destruct (coordinator s) eqn:Hpc.
  - destruct Hinv as [Hopen Hcount]. repeat split; auto. intros Hstop.
    exists [RunStart; WaitStopped; RunFailed]. eexists.
    split; [reflexivity | ]. split.
    + cbn. unfold step. rewrite Hpc. cbn. rewrite Hstop. cbn. reflexivity.
    + cbn. auto.
  - destruct Hinv as [Hopen Hcount]. repeat split; auto. intros Hstop.
    exists [WaitStopped; RunFailed]. eexists.
    split; [reflexivity | ]. split.
    + cbn. unfold step. rewrite Hpc, Hstop. cbn. reflexivity.
    + cbn. auto.
  - destruct Hinv as [Hopen Hcount]. repeat split; auto. intros Hstop.
    exists [RunFailed]. eexists.
    split; [reflexivity | ]. split.
    + cbn. unfold step. rewrite Hpc. reflexivity.
    + cbn. auto.
  - destruct Hinv as (_ & _ & Hs). congruence.
  - destruct Hinv as (_ & _ & Hs). congruence.
  - destruct Hinv as [[Hopen Hcount] | (_ & _ & Hs)]; [ | congruence].
    repeat split; auto. intros Hstop.
    exists []. exists s. cbn. auto.
  - contradiction.
Qed.

Lemma run_returns_without_closing_witness :
  match execute osmClient stoppedRun (initial osmClient false) with
  | Some s =>
      Go.closed (cacheSynced s) = false /\ closes s = 0 /\
      exists steps s',
        forallb of_coordinator steps = true /\
        execute osmClient steps s = Some s' /\
        coordinator s' = Done /\
        Go.closed (cacheSynced s') = false /\ closes s' = 0
  | None => False
  end.
Proof.
  destruct (execute osmClient stoppedRun (initial osmClient false)) as [s | ] eqn:Hexec.
  - assert (Hflags : synced s = false /\ stop s = true).
    { vm_compute in Hexec. injection Hexec as <-. split; reflexivity. }
    destruct Hflags as [Hsynced Hstop].
    destruct (run_returns_without_closing osmClient false stoppedRun s Hexec Hsynced)
      as (Hopen & Hcount & Hreturns).
    exact (conj Hopen (conj Hcount (Hreturns Hstop))).
  - vm_compute in Hexec. discriminate Hexec.
Defined.

(** ** What [getConfigMap] returns *)

(** C5: [getConfigMap] returns the zero record, and does not panic, when
    the informer has not started listing (the store is still empty), when
    the store has nothing under the watched key, and when the ConfigMap
    under it has no payload entry. The function has no error result. *)
Theorem getConfigMap_zero_without_payload {decoder : Decoder} c s order :
  (reachable c s /\ running s = false) \/
  absent c (store s) \/ withoutPayload c (store s) ->
  fst (Go.exec (getConfigMap c (store s) order)) = Go.Returned zeroConfig.
Proof.
  intros [[Hreach Hidle] | Hnothing].
  - apply getConfigMap_nothing_to_decode. left.
    unfold absent. rewrite (reachable_store_empty c s Hreach Hidle).
    apply lookup_empty.
  - by apply getConfigMap_nothing_to_decode.
Qed.

Lemma getConfigMap_zero_without_payload_witness :
  fst (Go.exec (getConfigMap (decoder := yaml_v2) osmClient
                  (store (initial osmClient false)) map_to_list))
  = Go.Returned zeroConfig /\
  fst (Go.exec (getConfigMap (decoder := yaml_v2) osmClient
                  (cache.Add (configMapOf "osm-system" ∅) ∅) map_to_list))
  = Go.Returned zeroConfig.
Proof.
  split.
  - apply (getConfigMap_zero_without_payload osmClient (initial osmClient false)).
    left. split; [ | reflexivity]. exists false, []. reflexivity.
  - apply (getConfigMap_zero_without_payload osmClient
             (withStore (initial osmClient false)
                        (cache.Add (configMapOf "osm-system" ∅) ∅))).
    right. right. exists (configMapOf "osm-system" ∅). split; reflexivity.
Defined.

(** C6: for the client watching "osm-system/osm-config", storing an
    object named "osm-config" of namespace "default", whatever its payload,
    into a store without the watched object leaves the lookup without a
    result: the key is built from the client's namespace and name, the
    object is stored under its own, and [getConfigMap] returns the zero
    record and logs nothing. *)
Theorem getConfigMap_ignores_other_namespace {decoder : Decoder}
    (data : gmap string string) (store : gmap string cache.object) order :
  absent osmClient store ->
  getConfigMapCacheKey osmClient = "osm-system/osm-config" /\
  cache.MetaNamespaceKeyFunc (configMapOf "default" data) = "default/osm-config" /\
  Go.exec (getConfigMap osmClient (cache.Add (configMapOf "default" data) store) order)
  = (Go.Returned zeroConfig, []).
Proof.
  intros Habsent. split; [reflexivity | ]. split; [reflexivity | ].
  unfold Go.exec. rewrite getConfigMap_cases.
  unfold cache.Add. rewrite lookup_insert_ne; [ | by vm_compute].
  unfold absent in Habsent. by rewrite Habsent.
Qed.

Lemma getConfigMap_ignores_other_namespace_witness :
  Go.exec (getConfigMap (decoder := yaml_v2) osmClient
             (cache.Add (configMapOf "default" {[ "osm.yaml" := validPayload ]}) ∅)
             map_to_list)
  = (Go.Returned zeroConfig, []).
Proof.
  apply (getConfigMap_ignores_other_namespace
           {[ "osm.yaml" := validPayload ]} ∅ map_to_list).
  reflexivity.
Defined.

(** C10: the assertion of the found item to [*v1.ConfigMap] is unchecked.
    If every item of the store is a ConfigMap the call returns a record: it
    does not panic. If the item under the watched key has any other type
    the call panics at the assertion. *)
Theorem getConfigMap_type_assertion {decoder : Decoder} c order :
  (forall store, holdsConfigMaps store ->
     exists conf, fst (Go.exec (getConfigMap c store order)) = Go.Returned conf) /\
  (forall (store : gmap string cache.object) ty,
     store !! getConfigMapCacheKey c = Some (cache.OtherType ty) ->
     fst (Go.exec (getConfigMap c store order))
     = Go.Panicked (Go.TypeAssertion "*v1.ConfigMap")).
Proof.
  split.
  - intros store Hall. unfold Go.exec. rewrite getConfigMap_cases.
    destruct (store !! getConfigMapCacheKey c) as [o | ] eqn:Hlookup; [ | by eexists].
    destruct (Hall _ _ Hlookup) as [cm ->].
    destruct (Nat.eqb (size (v1.Data cm)) 0); by eexists.
  - intros store ty Hlookup. unfold Go.exec. rewrite getConfigMap_cases.
    by rewrite Hlookup.
Qed.

Lemma getConfigMap_type_assertion_witness :
  (exists conf,
     fst (Go.exec (getConfigMap (decoder := yaml_v2) osmClient
            (cache.Add (configMapOf "osm-system" {[ "osm.yaml" := validPayload ]}) ∅)
            map_to_list)) = Go.Returned conf) /\
  fst (Go.exec (getConfigMap (decoder := yaml_v2) osmClient
         ({[ "osm-system/osm-config" := cache.OtherType "*v1.Secret" ]}
            : gmap string cache.object) map_to_list))
  = Go.Panicked (Go.TypeAssertion "*v1.ConfigMap").
Proof.
  split.
  - apply (proj1 (getConfigMap_type_assertion osmClient map_to_list)).
    intros key o. unfold cache.Add. intros Hlookup.
    apply lookup_insert_Some in Hlookup as [[_ <-] | [_ Hempty]]; [by eexists | ].
    by rewrite lookup_empty in Hempty.
  - apply (proj2 (getConfigMap_type_assertion osmClient map_to_list) _ "*v1.Secret").
    reflexivity.
Defined.

(** C2: with the text "config_version: 2\npermissive_traffic_policy_mode: true\n"
    as the only payload entry of the ConfigMap stored under the watched
    key, [getConfigMap] returns the record {2, true} and logs nothing. *)
Theorem getConfigMap_round_trip c (store : gmap string cache.object) cm name order :
  visits_each_entry_once order ->
  store !! getConfigMapCacheKey c = Some (cache.ConfigMap cm) ->
  v1.Data cm = {[ name := validPayload ]} ->
  Go.exec (getConfigMap (decoder := yaml_v2) c store order)
  = (Go.Returned {| ConfigVersion := 2; PermissiveTrafficPolicyMode := true |}, []).
Proof.
  intros Hvalid Hlookup Hdata.
  unfold Go.exec. rewrite getConfigMap_cases, Hlookup, Hdata, map_size_singleton.
  cbn [Nat.eqb]. rewrite (order_singleton order name validPayload Hvalid).
  vm_compute. reflexivity.
Qed.

Lemma getConfigMap_round_trip_witness :
  Go.exec (getConfigMap (decoder := yaml_v2) osmClient
             (cache.Add (configMapOf "osm-system" {[ "osm.yaml" := validPayload ]}) ∅)
             map_to_list)
  = (Go.Returned {| ConfigVersion := 2; PermissiveTrafficPolicyMode := true |}, []).
Proof.
  apply (getConfigMap_round_trip osmClient _
           (configMapOf "osm-system" {[ "osm.yaml" := validPayload ]}) "osm.yaml").
  - intros m. reflexivity.
  - reflexivity.
  - reflexivity.
Defined.

(** C1, at a payload that decodes in part: "config_version: abc" is a
    type error, which yaml.Unmarshal returns after it has decoded the rest
    of the document, so the decode fails and the record [getConfigMap]
    returns has PermissiveTrafficPolicyMode set: it is not the zero record.
    The error is logged and nothing is raised. *)
Theorem getConfigMap_keeps_partial_decode c (store : gmap string cache.object) cm name order :
  visits_each_entry_once order ->
  store !! getConfigMapCacheKey c = Some (cache.ConfigMap cm) ->
  v1.Data cm = {[ name := halfValidPayload ]} ->
  snd (Unmarshal (Decoder := yaml_v2) (list_ascii_of_string halfValidPayload) zeroConfig)
  = Some (yaml.TypeError ["line 1: cannot unmarshal !!str `abc` into int"]) /\
  Go.exec (getConfigMap (decoder := yaml_v2) c store order)
  = (Go.Returned {| ConfigVersion := 0; PermissiveTrafficPolicyMode := true |},
     [Go.LogError
        (Some ("yaml: unmarshal errors:" +:+ lf +:+
               "  line 1: cannot unmarshal !!str `abc` into int"))
        ("Error marshaling ConfigMap " +:+ osmConfigMapName c +:+
         " with content " +:+ halfValidPayload)]).
Proof.
  intros Hvalid Hlookup Hdata. split; [by vm_compute | ].
  unfold Go.exec. rewrite getConfigMap_cases, Hlookup, Hdata, map_size_singleton.
  cbn [Nat.eqb]. rewrite (order_singleton order name halfValidPayload Hvalid).
  vm_compute. reflexivity.
Qed.

Lemma getConfigMap_keeps_partial_decode_witness :
  fst (Go.exec (getConfigMap (decoder := yaml_v2) osmClient
         (cache.Add (configMapOf "osm-system" {[ "osm.yaml" := halfValidPayload ]}) ∅)
         map_to_list))
  = Go.Returned {| ConfigVersion := 0; PermissiveTrafficPolicyMode := true |}.
Proof.
  refine (f_equal fst (proj2 (getConfigMap_keeps_partial_decode osmClient _
           (configMapOf "osm-system" {[ "osm.yaml" := halfValidPayload ]}) "osm.yaml"
           map_to_list _ _ _))).
  - intros m. reflexivity.
  - reflexivity.
  - reflexivity.
Defined.

(** ** Which payload entry is decoded *)

Lemma forwards_visits_each_entry_once : visits_each_entry_once map_to_list.
Proof. intros m. reflexivity. Qed.

Lemma backwards_visits_each_entry_once : visits_each_entry_once backwards.
Proof. intros m. unfold backwards. apply reverse_Permutation. Qed.

(** C7 as stated fails: over one store whose ConfigMap has the two payload
    entries of [twoEntries], a call whose loop visits them in one order and
    a call whose loop visits them in the other return different records. *)
Lemma getConfigMap_selection_not_deterministic :
  ~ (forall c (store : gmap string cache.object) cm order1 order2,
       store !! getConfigMapCacheKey c = Some (cache.ConfigMap cm) ->
       1 < size (v1.Data cm) ->
       visits_each_entry_once order1 -> visits_each_entry_once order2 ->
       fst (Go.exec (getConfigMap (decoder := yaml_v2) c store order1))
       = fst (Go.exec (getConfigMap (decoder := yaml_v2) c store order2))).
Proof.
  intros Hdet.
  specialize (Hdet osmClient (cache.Add (configMapOf "osm-system" twoEntries) ∅)
                (configMapOf "osm-system" twoEntries) map_to_list backwards
                eq_refl).
  assert (Hsize : 1 < size (v1.Data (configMapOf "osm-system" twoEntries)))
    by (vm_compute; lia).
  specialize (Hdet Hsize forwards_visits_each_entry_once backwards_visits_each_entry_once).
  vm_compute in Hdet. discriminate Hdet.
Qed.

(** C7, amended: when the ConfigMap under the watched key has at most one
    payload entry, two calls over the same store return the same record
    and log the same, whatever order their loops take; and in general the
    text a call decodes is the value of the entry its loop visits last. *)
Theorem getConfigMap_deterministic_for_one_entry {decoder : Decoder}
    c (store : gmap string cache.object) order1 order2 :
  visits_each_entry_once order1 -> visits_each_entry_once order2 ->
  ((forall cm, store !! getConfigMapCacheKey c = Some (cache.ConfigMap cm) ->
               size (v1.Data cm) <= 1) ->
   Go.exec (getConfigMap c store order1) = Go.exec (getConfigMap c store order2)) /\
  (forall cm, store !! getConfigMapCacheKey c = Some (cache.ConfigMap cm) ->
     v1.Data cm <> ∅ ->
     exists name payload,
       last (order1 (v1.Data cm)) = Some (name, payload) /\
       v1.Data cm !! name = Some payload /\
       fst (Go.exec (getConfigMap c store order1))
       = Go.Returned (fst (Unmarshal (list_ascii_of_string payload) zeroConfig))).
Proof.
  intros Hvalid1 Hvalid2. unfold Go.exec. rewrite !getConfigMap_cases. split.
  - intros Hone.
    destruct (store !! getConfigMapCacheKey c) as [[cm | ty] | ]; try reflexivity.
    specialize (Hone cm eq_refl).
    assert (Hsame : order1 (v1.Data cm) = order2 (v1.Data cm)).
    { transitivity (map_to_list (v1.Data cm)).
      - apply short_permutation; [apply Hvalid1 | by rewrite length_map_to_list].
      - symmetry.
        apply short_permutation; [apply Hvalid2 | by rewrite length_map_to_list]. }
    by rewrite Hsame.
  - intros cm Hlookup Hdata. rewrite Hlookup.
    assert (Hperm := Hvalid1 (v1.Data cm)).
    destruct (last (order1 (v1.Data cm))) as [[name payload] | ] eqn:Hlast.
    + exists name, payload. split; [reflexivity | ].
      assert (Hin : (name, payload) ∈ map_to_list (v1.Data cm)).
      { rewrite <- Hperm. apply last_Some_elem_of. exact Hlast. }
      apply elem_of_map_to_list in Hin. split; [exact Hin | ].
      destruct (Nat.eqb (size (v1.Data cm)) 0) eqn:Hsize.
      * apply Nat.eqb_eq, map_size_empty_iff in Hsize. contradiction.
      * cbn. by rewrite rangeData_last, Hlast.
    + apply last_None in Hlast. rewrite Hlast in Hperm.
      apply Permutation_nil_l in Hperm. symmetry in Hperm.
      apply map_to_list_empty_iff in Hperm. contradiction.
Qed.

Lemma getConfigMap_deterministic_for_one_entry_witness :
  Go.exec (getConfigMap (decoder := yaml_v2) osmClient
             (cache.Add (configMapOf "osm-system" {[ "osm.yaml" := validPayload ]}) ∅)
             map_to_list)
  = Go.exec (getConfigMap (decoder := yaml_v2) osmClient
               (cache.Add (configMapOf "osm-system" {[ "osm.yaml" := validPayload ]}) ∅)
               backwards).
Proof.
  apply (getConfigMap_deterministic_for_one_entry osmClient _ map_to_list backwards
           forwards_visits_each_entry_once backwards_visits_each_entry_once).
  intros cm Hlookup. vm_compute in Hlookup. injection Hlookup as <-.
  vm_compute. lia.
Defined.

(** ** The namespace filter *)

Lemma shouldObserve_namespace osmNamespace obj ns :
  namespaceOf obj = Some ns ->
  shouldObserve osmNamespace obj = Go.Returned (String.eqb ns osmNamespace).
Proof.
  unfold namespaceOf, shouldObserve. intros Hns.
  destruct obj as [ | | | | | ty [[ | | | | ty' fields | | ] | ] | ]; try discriminate Hns.
  cbn. destruct (reflect.field "ObjectMeta" fields) as [[ | | | | mty meta | | ] | ];
    try discriminate Hns.
  cbn. destruct (reflect.field "Namespace" meta) as [[ | | | s | | | ] | ];
    try discriminate Hns.
  injection Hns as ->. reflexivity.
Qed.

Lemma namespaceOf_ConfigMap cm :
  namespaceOf (v1.reflected cm) = Some (v1.Namespace (v1.Meta cm)).
Proof. reflexivity. Qed.

(** C3 as stated fails: the filter panics on an object that has no
    namespace field, here a pointer to an empty struct, where the claim has
    it return false. *)
Lemma shouldObserve_panics_without_field :
  ~ (forall osmNamespace obj,
       shouldObserve osmNamespace obj =
       Go.Returned match namespaceOf obj with
                   | Some ns => String.eqb ns osmNamespace
                   | None => false
                   end).
Proof.
  intros Hclaim. specialize (Hclaim "osm-system" bareObject).
  vm_compute in Hclaim. discriminate Hclaim.
Qed.

(** C3, amended: on an object that has the namespace field where the filter
    looks for it (a pointer to a struct with a struct field ObjectMeta that
    has a string field Namespace, as every ConfigMap the informer hands
    over), the filter returns true iff that namespace is the watched one.
    The filter does not check the shape: an object without the field
    ObjectMeta makes it panic, and so does one that is not a pointer; an
    ObjectMeta without the field Namespace reads as the text
    "<invalid Value>", which is compared with the watched namespace. *)
Theorem shouldObserve_filters_by_namespace osmNamespace :
  (forall obj ns, namespaceOf obj = Some ns ->
     exists pass, shouldObserve osmNamespace obj = Go.Returned pass /\
                  (pass = true <-> ns = osmNamespace)) /\
  (forall cm,
     shouldObserve osmNamespace (v1.reflected cm)
     = Go.Returned (String.eqb (v1.Namespace (v1.Meta cm)) osmNamespace)) /\
  (forall ty ty' fields, reflect.field "ObjectMeta" fields = None ->
     shouldObserve osmNamespace (reflect.Pointer ty (Some (reflect.Struct ty' fields)))
     = Go.Panicked (Go.ReflectKind "reflect.Value.FieldByName")) /\
  (forall obj, (forall ty target, obj <> reflect.Pointer ty target) ->
     shouldObserve osmNamespace obj = Go.Panicked (Go.ReflectKind "reflect.Value.Elem")) /\
  (forall ty ty' fields mty meta,
     reflect.field "ObjectMeta" fields = Some (reflect.Struct mty meta) ->
     reflect.field "Namespace" meta = None ->
     shouldObserve osmNamespace (reflect.Pointer ty (Some (reflect.Struct ty' fields)))
     = Go.Returned (String.eqb "<invalid Value>" osmNamespace)).
Proof.
  split; [ | split; [ | split; [ | split]]].
  - intros obj ns Hns. exists (String.eqb ns osmNamespace).
    split; [by apply shouldObserve_namespace | apply String.eqb_eq].
  - intros cm. apply shouldObserve_namespace, namespaceOf_ConfigMap.
  - intros ty ty' fields Hmissing. unfold shouldObserve. cbn. by rewrite Hmissing.
  - intros obj Hkind. destruct obj; try reflexivity. by destruct (Hkind ty target).
  - intros ty ty' fields mty meta Hmeta Hmissing.
    unfold shouldObserve. cbn. rewrite Hmeta. cbn. by rewrite Hmissing.
Qed.

Lemma shouldObserve_filters_by_namespace_witness :
  shouldObserve "osm-system" (v1.reflected (configMapOf "osm-system" ∅)) = Go.Returned true /\
  shouldObserve "osm-system" (v1.reflected (configMapOf "default" ∅)) = Go.Returned false /\
  shouldObserve "osm-system" bareObject
  = Go.Panicked (Go.ReflectKind "reflect.Value.FieldByName") /\
  shouldObserve "osm-system" (reflect.Str "osm-system")
  = Go.Panicked (Go.ReflectKind "reflect.Value.Elem") /\
  shouldObserve "osm-system" clusterScoped = Go.Returned false.
Proof.
  destruct (shouldObserve_filters_by_namespace "osm-system")
    as (_ & Hmaps & Hmeta & Hkind & Hfield).
  split; [exact (Hmaps (configMapOf "osm-system" ∅)) | ].
  split; [exact (Hmaps (configMapOf "default" ∅)) | ].
  split; [exact (Hmeta "struct {}" "struct {}" [] eq_refl) | ].
  split; [apply Hkind; intros ty target; discriminate | ].
  exact (Hfield "Node" "Node"
           [("ObjectMeta", reflect.Struct "Meta" [("Name", reflect.Str "node-1")])]
           "Meta" [("Name", reflect.Str "node-1")] eq_refl eq_refl).
Defined.

(** ** The announcements channel *)

Section Relay.

Variable filter : kubernetes.observeFilter.

(** Changes the filter drops never reach the channel, whatever the form of
    the send. *)
Lemma relay_skips_dropped form ch before rest :
  Forall (fun ev => filter (kubernetes.Value ev) = Go.Returned false) before ->
  kubernetes.relay form filter ch (before ++ rest) = kubernetes.relay form filter ch rest.
Proof.
  induction 1 as [ | ev before Hdrop _ IH]; [reflexivity | ].
  cbn. unfold kubernetes.handle. rewrite Hdrop. exact IH.
Qed.

(** On a channel without room, a best-effort relay drops every change the
    filter lets through, and gets through all of them. *)
Lemma relay_best_effort_drops ch observed :
  (forall ev, Go.try_send ch ev = Go.WouldBlock) ->
  Forall (fun ev => exists pass, filter (kubernetes.Value ev) = Go.Returned pass) observed ->
  kubernetes.relay kubernetes.BestEffort filter ch observed = kubernetes.Delivered ch.
Proof.
  intros Hfull. induction 1 as [ | ev rest [pass Hpass] _ IH]; [reflexivity | ].
  cbn. unfold kubernetes.handle, kubernetes.announce. rewrite Hpass, Hfull.
  destruct pass; exact IH.
Qed.

End Relay.




(** * Further properties of the client *)

(** ** The cache key *)

Lemma key_splits_at_first_slash (ns1 ns2 name1 name2 : string) :
  hasSlash ns1 = false -> hasSlash ns2 = false ->
  ns1 +:+ String "/" name1 = ns2 +:+ String "/" name2 ->
  ns1 = ns2 /\ name1 = name2.
Proof.
  revert ns2. induction ns1 as [ | a ns1 IH]; intros [ | b ns2] Hns1 Hns2 Heq;
    simpl in *.
  - injection Heq as ->. auto.
  - injection Heq as <- _. simpl in Hns2. discriminate Hns2.
  - injection Heq as -> _. simpl in Hns1. discriminate Hns1.
  - injection Heq as -> Heq.
    apply orb_false_iff in Hns1 as [_ Hns1]. apply orb_false_iff in Hns2 as [_ Hns2].
    destruct (IH ns2 Hns1 Hns2 Heq) as [-> ->]. auto.
Qed.

(** X1: two clients whose namespaces contain no "/" look up the same key
    only if they watch the same namespace and the same name; with a "/" in
    a namespace two different clients can share a key. *)
Theorem getConfigMapCacheKey_injective :
  (forall c1 c2,
     hasSlash (osmNamespace c1) = false -> hasSlash (osmNamespace c2) = false ->
     getConfigMapCacheKey c1 = getConfigMapCacheKey c2 -> c1 = c2) /\
  (exists c1 c2, c1 <> c2 /\ getConfigMapCacheKey c1 = getConfigMapCacheKey c2).
Proof.
  split.
  - intros [ns1 name1] [ns2 name2] Hns1 Hns2 Hkey. unfold getConfigMapCacheKey in Hkey.
    cbn in Hns1, Hns2. change (ns1 +:+ String "/" name1 = ns2 +:+ String "/" name2) in Hkey.
    destruct (key_splits_at_first_slash _ _ _ _ Hns1 Hns2 Hkey) as [-> ->].
    reflexivity.
  - exists {| osmNamespace := "a"; osmConfigMapName := "b/c" |},
           {| osmNamespace := "a/b"; osmConfigMapName := "c" |}.
    split; [discriminate | reflexivity].
Qed.

Lemma getConfigMapCacheKey_injective_witness :
  getConfigMapCacheKey osmClient
  <> getConfigMapCacheKey {| osmNamespace := "default"; osmConfigMapName := "osm-config" |}.
Proof.
  intros Hkey.
  apply (proj1 getConfigMapCacheKey_injective osmClient
           {| osmNamespace := "default"; osmConfigMapName := "osm-config" |}
           eq_refl eq_refl) in Hkey.
  discriminate Hkey.
Defined.

(** The key of the client is the key the informer stores the watched
    object under, if the watched namespace is not empty. *)
Lemma watched_object_key c cm :
  osmNamespace c <> EmptyString ->
  v1.Namespace (v1.Meta cm) = osmNamespace c ->
  v1.Name (v1.Meta cm) = osmConfigMapName c ->
  cache.MetaNamespaceKeyFunc cm = getConfigMapCacheKey c.
Proof.
  intros Hns Hsame Hname. unfold cache.MetaNamespaceKeyFunc, getConfigMapCacheKey.
  rewrite Hsame, Hname.
  destruct (String.eqb_spec (osmNamespace c) EmptyString); [contradiction | reflexivity].
Qed.

(** X2: once the informer has stored the watched object (its namespace the
    watched one, not empty, and its name the watched one) with a payload,
    [getConfigMap] decodes the payload entry its loop visits last, whatever
    else is in the store; once the informer has deleted the object again,
    [getConfigMap] returns the zero record and logs nothing. *)
Theorem getConfigMap_follows_informer {decoder : Decoder}
    c cm (store : gmap string cache.object) order :
  osmNamespace c <> EmptyString ->
  v1.Namespace (v1.Meta cm) = osmNamespace c ->
  v1.Name (v1.Meta cm) = osmConfigMapName c ->
  v1.Data cm <> ∅ ->
  Go.exec (getConfigMap c (cache.Add cm store) order)
  = (Go.Returned (fst (Unmarshal (rangeData (order (v1.Data cm))) zeroConfig)),
     decodeDiagnostics c (rangeData (order (v1.Data cm)))
       (snd (Unmarshal (rangeData (order (v1.Data cm))) zeroConfig))) /\
  Go.exec (getConfigMap c (delete (cache.MetaNamespaceKeyFunc cm) (cache.Add cm store)) order)
  = (Go.Returned zeroConfig, []).
Proof.
  intros Hns Hsame Hname Hdata.
  assert (Hkey := watched_object_key c cm Hns Hsame Hname).
  unfold Go.exec. rewrite !getConfigMap_cases. unfold cache.Add. rewrite Hkey. split.
  - rewrite lookup_insert_eq.
    destruct (Nat.eqb (size (v1.Data cm)) 0) eqn:Hsize; [ | reflexivity].
    apply Nat.eqb_eq, map_size_empty_iff in Hsize. contradiction.
  - by rewrite lookup_delete_eq.
Qed.

Lemma getConfigMap_follows_informer_witness :
  Go.exec (getConfigMap (decoder := yaml_v2) osmClient
             (delete "osm-system/osm-config"
                (cache.Add (configMapOf "osm-system" {[ "osm.yaml" := validPayload ]}) ∅))
             map_to_list)
  = (Go.Returned zeroConfig, []).
Proof.
  refine (proj2 (getConfigMap_follows_informer osmClient
            (configMapOf "osm-system" {[ "osm.yaml" := validPayload ]}) ∅ map_to_list
            _ _ _ _)).
  - discriminate.
  - reflexivity.
  - reflexivity.
  - apply insert_non_empty.
Defined.

(** ** What a call reads and what it logs *)

(** X3: [getConfigMap] reads the store under the watched key and nowhere
    else: two stores that agree there give the same result and the same
    log; so the informer adding or deleting an object stored under another
    key changes nothing for the caller. *)
Theorem getConfigMap_reads_only_watched_key {decoder : Decoder}
    c (store1 store2 : gmap string cache.object) order log :
  store1 !! getConfigMapCacheKey c = store2 !! getConfigMapCacheKey c ->
  getConfigMap c store1 order log = getConfigMap c store2 order log /\
  (forall cm, cache.MetaNamespaceKeyFunc cm <> getConfigMapCacheKey c ->
     getConfigMap c (cache.Add cm store1) order log = getConfigMap c store2 order log) /\
  (forall key, key <> getConfigMapCacheKey c ->
     getConfigMap c (delete key store1) order log = getConfigMap c store2 order log).
Proof.
  intros Hsame. rewrite !getConfigMap_cases. split; [by rewrite Hsame | ]. split.
  - intros cm Hother. rewrite getConfigMap_cases. unfold cache.Add.
    by rewrite lookup_insert_ne, Hsame.
  - intros key Hother. rewrite getConfigMap_cases.
    by rewrite lookup_delete_ne, Hsame.
Qed.

Lemma getConfigMap_reads_only_watched_key_witness :
  getConfigMap (decoder := yaml_v2) osmClient
    (cache.Add (configMapOf "default" {[ "osm.yaml" := validPayload ]}) ∅) map_to_list []
  = getConfigMap (decoder := yaml_v2) osmClient (∅ : gmap string cache.object) map_to_list [].
Proof.
  refine (proj1 (proj2 (getConfigMap_reads_only_watched_key osmClient ∅ ∅ map_to_list []
                          eq_refl)) (configMapOf "default" {[ "osm.yaml" := validPayload ]}) _).
  vm_compute. discriminate.
Defined.

(** X4: a call keeps what was logged before it and adds at most one line;
    it adds none when the watched object is not in the store: a lookup that
    misses is silent. *)
Theorem getConfigMap_logs_at_most_one_line {decoder : Decoder}
    c (store : gmap string cache.object) order log :
  exists added,
    snd (getConfigMap c store order log) = (log ++ added)%list /\
    length added <= 1 /\
    (absent c store -> added = []).
Proof.
  rewrite getConfigMap_cases. unfold absent.
  destruct (store !! getConfigMapCacheKey c) as [[cm | ty] | ].
  - destruct (Nat.eqb (size (v1.Data cm)) 0).
    + eexists. split; [reflexivity | ]. split; [cbn; lia | discriminate].
    + eexists. split; [reflexivity | ]. split; [ | discriminate].
      unfold decodeDiagnostics. destruct (snd (Unmarshal _ _)); cbn; lia.
  - exists []. rewrite app_nil_r. split; [reflexivity | ]. split; [cbn; lia | discriminate].
  - exists []. rewrite app_nil_r. split; [reflexivity | ]. split; [cbn; lia | reflexivity].
Qed.

(** X5: over any implementation of the store, an error from [GetByKey]
    does not end the call. It is logged first; if the store reports that
    the key does not exist the zero record is returned, and if it reports
    that the key exists the item it returned is used as if there had been
    no error. *)
Theorem getConfigMap_store_error_is_only_logged
    {St : Type} {storeOps : cache.Store St} {decoder : Decoder}
    c (st : St) order e :
  cache.err (cache.GetByKey st (getConfigMapCacheKey c)) = Some e ->
  (cache.exists_ (cache.GetByKey st (getConfigMapCacheKey c)) = false ->
   Go.exec (getConfigMap c st order) = (Go.Returned zeroConfig, [storeErrorLine c e])) /\
  (forall cm,
     cache.exists_ (cache.GetByKey st (getConfigMapCacheKey c)) = true ->
     cache.item (cache.GetByKey st (getConfigMapCacheKey c)) = Some (cache.ConfigMap cm) ->
     v1.Data cm <> ∅ ->
     Go.exec (getConfigMap c st order)
     = (Go.Returned (fst (Unmarshal (rangeData (order (v1.Data cm))) zeroConfig)),
        storeErrorLine c e ::
        decodeDiagnostics c (rangeData (order (v1.Data cm)))
          (snd (Unmarshal (rangeData (order (v1.Data cm))) zeroConfig)))).
Proof.
  intros Herr. unfold Go.exec, getConfigMap. rewrite Herr. split.
  - intros Hmissing. rewrite Hmissing. reflexivity.
  - intros cm Hexists Hitem Hdata. rewrite Hexists, Hitem. cbn.
    unfold mbind, go_bind, Go.bind, Go.lift, Go.emit. cbn.
    destruct (Nat.eqb (size (v1.Data cm)) 0) eqn:Hsize.
    { apply Nat.eqb_eq, map_size_empty_iff in Hsize. contradiction. }
    destruct (Unmarshal _ zeroConfig) as [conf [err | ]]; reflexivity.
Qed.

Lemma getConfigMap_store_error_is_only_logged_witness :
  Go.exec (getConfigMap (decoder := yaml_v2) osmClient
             (FailingStore
                (cache.Add (configMapOf "osm-system" {[ "osm.yaml" := validPayload ]}) ∅)
                "store closed")
             map_to_list)
  = (Go.Returned {| ConfigVersion := 2; PermissiveTrafficPolicyMode := true |},
     [storeErrorLine osmClient "store closed"]).
Proof.
  refine (proj2 (getConfigMap_store_error_is_only_logged osmClient
            (FailingStore
               (cache.Add (configMapOf "osm-system" {[ "osm.yaml" := validPayload ]}) ∅)
               "store closed")
            map_to_list "store closed" eq_refl)
            (configMapOf "osm-system" {[ "osm.yaml" := validPayload ]}) eq_refl eq_refl _).
  apply insert_non_empty.
Defined.

(** ** More on the sync coordinator *)

Section Coordinator.

Variable c : Client.

Ltac event_cases e s H :=
  unfold step in H;
  destruct e; destruct (coordinator s) eqn:?;
  try discriminate H;
  try (destruct (waiting s) eqn:?; try discriminate H);
  repeat match type of H with
         | context [if ?b then _ else _] => destruct b eqn:?
         end;
  try discriminate H; inversion H; subst; clear H.

Lemma step_journal e s s' :
  readiness s -> journal c s -> step c e s = Some s' -> journal c s'.
Proof.
  unfold readiness, journal. intros Hready Hlog Hstep.
  event_cases e s Hstep;
    repeat match goal with
           | H : coordinator _ = _ |- _ => rewrite H in Hready, Hlog
           end;
    unfold closeCacheSynced, Go.close; cbn in *;
    repeat match goal with
           | H : coordinator _ = _ |- _ => rewrite H
           end; cbn; try rewrite app_nil_r; try assumption.
  all: try (rewrite Hlog; reflexivity).
  all: try (left; rewrite Hlog; split; [reflexivity | tauto]).
  all: try (right; rewrite Hlog; split; [reflexivity | tauto]).
  all: try (destruct Hready as (Hopen & _); rewrite Hopen; cbn; assumption).
  all: intuition congruence.
Qed.

Lemma reachable_journal s : reachable c s -> journal c s.
Proof.
  intros Hreach. assert (Hready := reachable_readiness c s Hreach).
  destruct Hreach as (stopClosed & events & Hexec).
  apply (execute_preserves c (fun x => readiness x /\ journal c x)
           (fun e s1 s2 H Hs =>
              conj (step_readiness c e s1 s2 (proj1 H) Hs)
                   (step_journal e s1 s2 (proj1 H) (proj2 H) Hs))
           events _ s (conj (initial_readiness c stopClosed) eq_refl) Hexec).
Qed.

Lemma step_unstopped e s s' :
  readiness s -> unstopped s -> step c e s = Some s' -> unstopped s'.
Proof.
  unfold readiness, unstopped. intros Hready Hinv Hstep.
  event_cases e s Hstep;
    repeat match goal with
           | H : coordinator _ = _ |- _ => rewrite H in Hready, Hinv
           end;
    unfold closeCacheSynced, Go.close; cbn in *;
    repeat match goal with
           | H : coordinator _ = _ |- _ => rewrite H
           end; cbn; try tauto; try congruence.
  all: destruct (Go.closed (cacheSynced s)); cbn; tauto.
Qed.

Lemma reachable_unstopped s : reachable c s -> unstopped s.
Proof.
  intros (stopClosed & events & Hexec).
  apply (execute_preserves c (fun x => readiness x /\ unstopped x)
           (fun e s1 s2 H Hs =>
              conj (step_readiness c e s1 s2 (proj1 H) Hs)
                   (step_unstopped e s1 s2 (proj1 H) (proj2 H) Hs))
           events _ s (conj (initial_readiness c stopClosed) (fun _ => I)) Hexec).
Qed.

(** A receive from the readiness channel returns only on the closed
    channel. *)
Lemma step_released e s s' :
  (released s = 0 \/ Go.closed (cacheSynced s) = true) ->
  step c e s = Some s' ->
  released s' = 0 \/ Go.closed (cacheSynced s') = true.
Proof.
  intros Hinv Hstep.
  event_cases e s Hstep; unfold closeCacheSynced, Go.close; cbn;
    try (destruct (Go.closed (cacheSynced s)) eqn:?; cbn); try tauto;
    destruct Hinv; auto; congruence.
Qed.

Lemma reachable_released s :
  reachable c s -> released s = 0 \/ Go.closed (cacheSynced s) = true.
Proof.
  intros (stopClosed & events & Hexec).
  eapply (execute_preserves c
            (fun x => released x = 0 \/ Go.closed (cacheSynced x) = true));
    [ | | exact Hexec].
  - intros e s1 s2. apply step_released.
  - left. reflexivity.
Qed.

End Coordinator.

(** X6: when [run] has returned it has logged three lines, its two
    opening lines and then either the error "Failed initial cache sync for
    ConfigMap informer" or the closing Info line; it logged the error
    exactly when it left the readiness channel open, and the closing line
    exactly when it closed the channel, once, after the store was synced. *)
Theorem run_log_tells_the_outcome c stopClosed events s :
  execute c events (initial c stopClosed) = Some s ->
  coordinator s = Done ->
  (log s = (startLines c ++ [failedLine])%list /\
   Go.closed (cacheSynced s) = false /\ closes s = 0) \/
  (log s = (startLines c ++ [finishedLine])%list /\
   Go.closed (cacheSynced s) = true /\ closes s = 1 /\ synced s = true).
Proof.
  intros Hexec Hdone.
  assert (Hreach : reachable c s) by (red; eauto).
  assert (Hready := reachable_readiness c s Hreach).
  assert (Hlog := reachable_journal c s Hreach).
  unfold readiness in Hready. unfold journal in Hlog. rewrite Hdone in Hready, Hlog.
  destruct Hlog as [[Hlog Hopen] | [Hlog Hclosed]]; [left | right];
    (split; [exact Hlog | ]);
    destruct Hready as [(Hc & Hn) | (Hc & Hn & Hs)]; try congruence; auto.
Qed.

Lemma run_log_tells_the_outcome_witness :
  match execute osmClient busyRun (initial osmClient false) with
  | Some s =>
      (log s = (startLines osmClient ++ [failedLine])%list /\
       Go.closed (cacheSynced s) = false /\ closes s = 0) \/
      (log s = (startLines osmClient ++ [finishedLine])%list /\
       Go.closed (cacheSynced s) = true /\ closes s = 1 /\ synced s = true)
  | None => False
  end.
Proof.
  destruct (execute osmClient busyRun (initial osmClient false)) as [s | ] eqn:Hexec.
  - apply (run_log_tells_the_outcome osmClient false busyRun s Hexec).
    vm_compute in Hexec. injection Hexec as <-. reflexivity.
  - vm_compute in Hexec. discriminate Hexec.
Defined.

(** X7: a goroutine that receives from the readiness channel gets past
    the receive only after [run] closed the channel, which [run] does only
    after a poll saw the store synced; as long as the store has not synced,
    no such receive has returned. *)
Theorem observers_released_after_sync c stopClosed events s :
  execute c events (initial c stopClosed) = Some s ->
  (0 < released s ->
   Go.closed (cacheSynced s) = true /\ closes s = 1 /\ synced s = true) /\
  (synced s = false -> released s = 0).
Proof.
  intros Hexec.
  assert (Hreach : reachable c s) by (red; eauto).
  assert (Hready := reachable_readiness c s Hreach).
  assert (Hreleased := reachable_released c s Hreach).
  assert (Hclosed : Go.closed (cacheSynced s) = true -> closes s = 1 /\ synced s = true).
  { intros Hc. unfold readiness in Hready.
    destruct (coordinator s); intuition congruence. }
  split.
  - intros Hsome. destruct Hreleased as [Hnone | Hc]; [lia | ]. split; auto.
  - intros Hsync. destruct Hreleased as [Hnone | Hc]; [exact Hnone | ].
    destruct (Hclosed Hc). congruence.
Qed.

Lemma observers_released_after_sync_witness :
  match execute osmClient stoppedRun (initial osmClient false) with
  | Some s => released s = 0
  | None => False
  end.
Proof.
  destruct (execute osmClient stoppedRun (initial osmClient false)) as [s | ] eqn:Hexec.
  - apply (observers_released_after_sync osmClient false stoppedRun s Hexec).
    vm_compute in Hexec. injection Hexec as <-. reflexivity.
  - vm_compute in Hexec. discriminate Hexec.
Defined.

(** X8: if the store has synced and nobody has closed the stop channel,
    [run] has not given up, and from wherever it stands it gets by its own
    steps to its return with the readiness channel closed, closed once. *)
Theorem run_closes_when_synced c stopClosed events s :
  execute c events (initial c stopClosed) = Some s ->
  synced s = true -> stop s = false ->
  exists steps s',
    forallb of_coordinator steps = true /\
    execute c steps s = Some s' /\
    coordinator s' = Done /\
    Go.closed (cacheSynced s') = true /\ closes s' = 1.
Proof.
  intros Hexec Hsynced Hstop.
  assert (Hreach : reachable c s) by (red; eauto).
  assert (Hready := reachable_readiness c s Hreach).
  assert (Hinv := reachable_unstopped c s Hreach Hstop).
  unfold readiness in Hready.
  destruct (coordinator s) eqn:Hpc; try contradiction.
  - destruct Hready as [Hopen Hcount].
    exists [RunStart; WaitSynced; RunClose; RunFinished]. eexists.
    split; [reflexivity | ]. split.
    + cbn. unfold step. rewrite Hpc. cbn. rewrite Hsynced. cbn.
      unfold closeCacheSynced, Go.close. cbn. rewrite Hopen. cbn. reflexivity.
    + cbn. rewrite Hcount. auto.
  - destruct Hready as [Hopen Hcount].
    exists [WaitSynced; RunClose; RunFinished]. eexists.
    split; [reflexivity | ]. split.
    + cbn. unfold step. rewrite Hpc, Hsynced. cbn.
      unfold closeCacheSynced, Go.close. cbn. rewrite Hopen. cbn. reflexivity.
    + cbn. rewrite Hcount. auto.
  - destruct Hready as (Hopen & Hcount & _).
    exists [RunClose; RunFinished]. eexists.
    split; [reflexivity | ]. split.
    + cbn. unfold step. rewrite Hpc.
      unfold closeCacheSynced, Go.close. rewrite Hopen. cbn. reflexivity.
    + cbn. rewrite Hcount. auto.
  - destruct Hready as (Hclosed & Hcount & _).
    exists [RunFinished]. eexists.
    split; [reflexivity | ]. split.
    + cbn. unfold step. rewrite Hpc. reflexivity.
    + cbn. auto.
  - exists [], s. cbn.
    destruct Hready as [[Hopen _] | (Hclosed & Hcount & _)]; [congruence | auto].
Qed.

Lemma run_closes_when_synced_witness :
  match execute osmClient quietRun (initial osmClient false) with
  | Some s =>
      exists steps s',
        forallb of_coordinator steps = true /\
        execute osmClient steps s = Some s' /\
        coordinator s' = Done /\
        Go.closed (cacheSynced s') = true /\ closes s' = 1
  | None => False
  end.
Proof.
  destruct (execute osmClient quietRun (initial osmClient false)) as [s | ] eqn:Hexec.
  - assert (Hflags : synced s = true /\ stop s = false).
    { vm_compute in Hexec. injection Hexec as <-. split; reflexivity. }
    exact (run_closes_when_synced osmClient false quietRun s Hexec
             (proj1 Hflags) (proj2 Hflags)).
  - vm_compute in Hexec. discriminate Hexec.
Defined.

(** ** The namespace filter, on every shape of object *)

(** X9: the filter returns, rather than panics, exactly on a non-nil
    pointer to a struct that has a struct field ObjectMeta; what it returns
    then is whether the text of the field Namespace of that ObjectMeta
    ("<invalid Value>" without such a field) is the watched namespace. On
    a nil pointer it panics. *)
Theorem shouldObserve_returns_iff osmNamespace obj :
  ((exists pass, shouldObserve osmNamespace obj = Go.Returned pass) <->
   (exists ty ty' fields mty meta,
      obj = reflect.Pointer ty (Some (reflect.Struct ty' fields)) /\
      reflect.field "ObjectMeta" fields = Some (reflect.Struct mty meta))) /\
  (forall ty ty' fields mty meta,
     obj = reflect.Pointer ty (Some (reflect.Struct ty' fields)) ->
     reflect.field "ObjectMeta" fields = Some (reflect.Struct mty meta) ->
     shouldObserve osmNamespace obj
     = Go.Returned
         (String.eqb
            (match reflect.field "Namespace" meta with
             | Some f => reflect.String (reflect.Of f)
             | None => "<invalid Value>"
             end) osmNamespace)) /\
  (forall ty, obj = reflect.Pointer ty None ->
     shouldObserve osmNamespace obj
     = Go.Panicked (Go.ReflectKind "reflect.Value.FieldByName")).
Proof.
  split; [split | split].
  - intros [pass Hpass]. unfold shouldObserve in Hpass.
    destruct obj as [ | | | | | ty [target | ] | ]; try discriminate Hpass.
    destruct target as [ | | | | ty' fields | | ]; try discriminate Hpass.
    cbn in Hpass.
    destruct (reflect.field "ObjectMeta" fields) as [[ | | | | mty meta | | ] | ] eqn:Hmeta;
      try discriminate Hpass.
    by exists ty, ty', fields, mty, meta.
  - intros (ty & ty' & fields & mty & meta & -> & Hmeta).
    unfold shouldObserve. cbn. rewrite Hmeta. cbn.
    destruct (reflect.field "Namespace" meta); cbn; eauto.
  - intros ty ty' fields mty meta -> Hmeta.
    unfold shouldObserve. cbn. rewrite Hmeta. cbn.
    by destruct (reflect.field "Namespace" meta).
  - intros ty ->. reflexivity.
Qed.

(** ** What a decoded payload can contain *)

Lemma mappingStruct_cons k v rest out :
  fst (yaml.mappingStruct osmConfigFields ((k, v) :: rest) out)
  = fst (yaml.mappingStruct osmConfigFields rest (entryEffect k v out)).
Proof.
  unfold entryEffect, osmConfigFields. cbn [yaml.mappingStruct yaml.lookup_field].
  destruct (String.eqb "config_version" (yaml.key_name k)).
  - unfold yaml.scalar.
    destruct (yaml.resolve (yaml.value v));
      by destruct (yaml.mappingStruct _ rest _).
  - destruct (String.eqb "permissive_traffic_policy_mode" (yaml.key_name k));
      [ | reflexivity].
    unfold yaml.scalar.
    destruct (yaml.resolve (yaml.value v));
      by destruct (yaml.mappingStruct _ rest _).
Qed.

Lemma yaml_v2_decodes (input : list ascii) :
  fst (yaml_v2 input zeroConfig) =
  match yaml.parse input with
  | yaml.Document (Some (yaml.MappingNode children)) =>
      fst (yaml.mappingStruct osmConfigFields children zeroConfig)
  | _ => zeroConfig
  end.
Proof.
  unfold yaml_v2, yaml.Unmarshal.
  destruct (yaml.parse input) as [[[children] | ] | msg]; try reflexivity.
  by destruct (yaml.mappingStruct osmConfigFields children zeroConfig) as [conf [ | e errs]].
Qed.

Lemma setsPermissive_cons k v rest :
  setsPermissive rest -> setsPermissive ((k, v) :: rest).
Proof.
  intros (k' & v' & Hin & Hkey & Hres). exists k', v'.
  split; [by apply list_elem_of_further | auto].
Qed.

Lemma setsVersion_cons z k v rest :
  setsVersion z rest -> setsVersion z ((k, v) :: rest).
Proof.
  intros (k' & v' & Hin & Hkey & Hres). exists k', v'.
  split; [by apply list_elem_of_further | auto].
Qed.

Lemma mappingStruct_permissive children out :
  PermissiveTrafficPolicyMode (fst (yaml.mappingStruct osmConfigFields children out)) = true ->
  PermissiveTrafficPolicyMode out = true \/ setsPermissive children.
Proof.
  revert out. induction children as [ | [k v] rest IH]; intros out Hon; [by left | ].
  rewrite mappingStruct_cons in Hon.
  destruct (IH _ Hon) as [Hentry | Hrest]; [ | right; by apply setsPermissive_cons].
  unfold entryEffect in Hentry.
  destruct (String.eqb "config_version" (yaml.key_name k)).
  { left. by destruct (yaml.resolve (yaml.value v)). }
  destruct (String.eqb_spec "permissive_traffic_policy_mode" (yaml.key_name k))
    as [Hkey | _]; [ | by left].
  destruct (yaml.resolve (yaml.value v)) as [ | b | z | text] eqn:Hres; cbn in Hentry;
    try (by left); try discriminate Hentry.
  right. exists k, v. subst b. split; [apply list_elem_of_here | auto].
Qed.

Lemma mappingStruct_version children out z :
  ConfigVersion (fst (yaml.mappingStruct osmConfigFields children out)) = z ->
  z <> 0%Z ->
  ConfigVersion out = z \/ setsVersion z children.
Proof.
  revert out. induction children as [ | [k v] rest IH]; intros out Hz Hnonzero; [by left | ].
  rewrite mappingStruct_cons in Hz.
  destruct (IH _ Hz Hnonzero) as [Hentry | Hrest]; [ | right; by apply setsVersion_cons].
  unfold entryEffect in Hentry.
  destruct (String.eqb_spec "config_version" (yaml.key_name k)) as [Hkey | _].
  - destruct (yaml.resolve (yaml.value v)) as [ | b | z' | text] eqn:Hres; cbn in Hentry;
      try (by left); try congruence.
    right. exists k, v. subst z'. split; [apply list_elem_of_here | auto].
  - left.
    destruct (String.eqb "permissive_traffic_policy_mode" (yaml.key_name k)); [ | done].
    by destruct (yaml.resolve (yaml.value v)).
Qed.



(** ** An empty watched namespace *)

(** X12: a client built with the empty string as its namespace looks up
    "/<name>", a key under which the informer stores no object whose
    namespace and name are free of "/": such an object is stored under
    "<namespace>/<name>" with a namespace that is not empty, or under
    "<name>". So storing it leaves the lookup without a result, and
    [getConfigMap] returns the zero record and logs nothing. *)
Theorem getConfigMap_empty_namespace_misses {decoder : Decoder}
    c cm (store : gmap string cache.object) order :
  osmNamespace c = EmptyString ->
  hasSlash (v1.Namespace (v1.Meta cm)) = false ->
  hasSlash (v1.Name (v1.Meta cm)) = false ->
  absent c store ->
  cache.MetaNamespaceKeyFunc cm <> getConfigMapCacheKey c /\
  Go.exec (getConfigMap c (cache.Add cm store) order) = (Go.Returned zeroConfig, []).
Proof.
  intros Hempty Hns Hname Habsent.
  assert (Hkey : cache.MetaNamespaceKeyFunc cm <> getConfigMapCacheKey c).
  { unfold cache.MetaNamespaceKeyFunc, getConfigMapCacheKey. rewrite Hempty.
    destruct (String.eqb_spec (v1.Namespace (v1.Meta cm)) EmptyString) as [_ | Hne].
    - intros Heq. rewrite Heq in Hname. simpl in Hname. discriminate Hname.
    - intros Heq.
      change (v1.Namespace (v1.Meta cm) +:+ String "/" (v1.Name (v1.Meta cm))
              = EmptyString +:+ String "/" (osmConfigMapName c)) in Heq.
      by destruct (key_splits_at_first_slash _ EmptyString _ _ Hns eq_refl Heq). }
  split; [exact Hkey | ].
  unfold Go.exec. rewrite getConfigMap_cases. unfold cache.Add.
  rewrite lookup_insert_ne; [ | exact Hkey].
  unfold absent in Habsent. by rewrite Habsent.
Qed.

Lemma getConfigMap_empty_namespace_misses_witness :
  Go.exec (getConfigMap (decoder := yaml_v2)
             {| osmNamespace := EmptyString; osmConfigMapName := "osm-config" |}
             (cache.Add (configMapOf EmptyString {[ "osm.yaml" := validPayload ]}) ∅)
             map_to_list)
  = (Go.Returned zeroConfig, []).
Proof.
  apply (getConfigMap_empty_namespace_misses
           {| osmNamespace := EmptyString; osmConfigMapName := "osm-config" |}
           (configMapOf EmptyString {[ "osm.yaml" := validPayload ]}) ∅ map_to_list);
    reflexivity.
Defined.
